(** * Session action compiler and request dispatch of [MycroftSkill]

    A shallow embedding of
    [shared/mycroft/skills/mycroft_skill/mycroft_skill.py]: the action
    compiler [_build_actions], the session envelope builders
    [emit_start_session], [continue_session], [end_session] and
    [abort_session], the bus entry points [_handle_intent],
    [__handle_skill_stop] and [__handle_skill_response], the resource
    lookup [find_resource], and the properties [location_pretty],
    [location_timezone] and [alphanumeric_skill_id] with the module's
    [simple_trace].  The skill is modelled once bound to a bus; the property
    [bus] of a skill that is not bound yet is modelled apart.

    Python dictionaries are finite maps from strings to JSON-like values,
    action records are the dictionaries the source builds, methods that
    raise return a [result], and methods that emit on the bus or assign
    attributes of [self] thread the skill through a state-and-exception
    monad. *)

From Stdlib Require Import ZArith.
From Stdlib Require Import PrimFloat SpecFloat FloatOps.
From stdpp Require Import gmap strings list fin_maps.

Set Default Proof Using "Type".

(** ** Python values *)

Module Py.

(** The values a message payload carries ([Dict[str, Any]] in the source):
    [None], booleans, integers, floats, strings, lists and dictionaries. *)
#[warnings="-register-all"]
Inductive Value :=
| VNone
| VBool (b : bool)
| VInt (z : Z)
| VFloat (f : float)
| VStr (s : string)
| VList (l : list Value)
| VDict (d : gmap string Value).

Abbreviation Dict := (gmap string Value).

(** [d.get(k)]: the value under [k], or [None]. *)
Definition get (d : Dict) (k : string) : Value := default VNone (d !! k).

(** [d.get(k, dflt)]. *)
Definition get_default (d : Dict) (k : string) (dflt : Value) : Value :=
  default dflt (d !! k).

(** [{**base, **over}]: the entries of [over] are written on top of those
    of [base]. *)
Definition spread (base over : Dict) : Dict := over ∪ base.

(** An [Optional[Dict]] as a value. *)
Definition of_opt_dict (d : option Dict) : Value :=
  match d with Some d => VDict d | None => VNone end.

(** Truth value of a string and of an optional string ([if uri:]). *)
Definition str_truthy (s : string) : bool :=
  match s with "" => false | _ => true end.

Definition opt_str_truthy (s : option string) : bool :=
  match s with Some s => str_truthy s | None => false end.

(** Truth value of a value ([if v:]). *)
Definition truthy (v : Value) : bool :=
  match v with
  | VNone => false
  | VBool b => b
  | VInt z => negb (z =? 0)%Z
  | VFloat f => negb (PrimFloat.eqb f 0%float)
  | VStr s => str_truthy s
  | VList l => match l with [] => false | _ => true end
  | VDict d => negb (bool_decide (d = ∅))
  end.

(** An integer equals a float when the float is finite and denotes that
    integer exactly. *)
Definition Z_eq_float (z : Z) (f : float) : bool :=
  match Prim2SF f with
  | S754_zero _ => (z =? 0)%Z
  | S754_finite sgn m e =>
      let v := if sgn then Z.neg m else Z.pos m in
      if (0 <=? e)%Z then (z =? v * 2 ^ e)%Z else (z * 2 ^ (- e) =? v)%Z
  | _ => false
  end.

Definition all_true (d : gmap string bool) : bool :=
  map_fold (fun _ b acc => b && acc) true d.

(** [a == b].  Booleans count as the integers 0 and 1, numbers compare by
    value, lists pointwise, dictionaries key by key. *)
Fixpoint py_eq (a b : Value) : bool :=
  match a, b with
  | VNone, VNone => true
  | VBool x, VBool y => Bool.eqb x y
  | VBool x, VInt y | VInt y, VBool x => (Z.b2z x =? y)%Z
  | VBool x, VFloat y | VFloat y, VBool x => Z_eq_float (Z.b2z x) y
  | VInt x, VInt y => (x =? y)%Z
  | VInt x, VFloat y | VFloat y, VInt x => Z_eq_float x y
  | VFloat x, VFloat y => PrimFloat.eqb x y
  | VStr x, VStr y => String.eqb x y
  | VList l, VList m =>
      (fix go (l m : list Value) : bool :=
         match l, m with
         | [], [] => true
         | x :: l, y :: m => py_eq x y && go l m
         | _, _ => false
         end) l m
  | VDict d, VDict e =>
      all_true (merge (fun o1 o2 =>
                         match o1, o2 with
                         | Some x, Some y => Some (py_eq x y)
                         | None, None => None
                         | _, _ => Some false
                         end) d e)
  | _, _ => false
  end.

(** Exceptions, by class; each derives from [Exception]. *)
Inductive Exception :=
| TypeError (what : string)
| AttributeError (what : string)
| KeyError (what : string)
| IndexError (what : string)
| RuntimeError (what : string)
| PlainException (what : string).   (* Exception itself *)

(** The outcome of a call that may raise. *)
Inductive result (A : Type) :=
| Ok (a : A)
| Raise (e : Exception).
Arguments Ok {A} a.
Arguments Raise {A} e.

Definition bind {A B} (r : result A) (k : A -> result B) : result B :=
  match r with Ok a => k a | Raise e => Raise e end.

(** [v[0]] for a value [v] that is already known to be truthy. *)
Definition index0 (v : Value) : result Value :=
  match v with
  | VList (x :: _) => Ok x
  | VList [] => Raise (IndexError "list index out of range")
  | VStr (String c _) => Ok (VStr (String c ""))
  | VStr "" => Raise (IndexError "string index out of range")
  | VDict _ => Raise (KeyError "0")
  | _ => Raise (TypeError "object is not subscriptable")
  end.

End Py.

Export Py.

Notation "x <- r ;; k" := (Py.bind r (fun x => k))
  (at level 100, r at next level, right associativity, only parsing).

(** ** Messages, policies and request items *)

(** A bus message: its type and its data payload. *)
Record Message := { msg_type : string; data : Dict }.

(** [class GuiClear(str, Enum)]: when to clear the display. *)
Inductive GuiClear := AUTO | ON_IDLE | NEVER | AT_START | AT_END.

#[global] Instance GuiClear_eq_dec : EqDecision GuiClear.
Proof. solve_decision. Defined.

(** [class MessageSend(str, Enum)]: where an attached message is sent. *)
Module MessageSend.
Inductive t := AT_START | AT_END.

#[global] Instance eq_dec : EqDecision t.
Proof. solve_decision. Defined.
End MessageSend.

(** [SessionDialogType]: a dialog name, or a (name, data) tuple. *)
Inductive SessionDialogType :=
| dialog_str (name : string)
| dialog_tuple (name : string) (dialog_data : option Dict).

(** [SessionDialogsType]: one dialog, or a sequence of dialogs.  The source
    tells them apart with [isinstance(dialog, (str, tuple))]. *)
Inductive SessionDialogsType :=
| one_dialog (d : SessionDialogType)
| dialog_seq (ds : list SessionDialogType).

(** [SessionGuiType]: a page name, or a (page, data) tuple. *)
Inductive SessionGuiType :=
| gui_str (page : string)
| gui_tuple (page : string) (gui_data : option Dict).

Inductive SessionGuisType :=
| one_gui (g : SessionGuiType)
| gui_seq (gs : list SessionGuiType).

(** ** Actions

    An action is the dictionary the source appends to [actions]; its kind is
    the string under ["type"]. *)
Abbreviation Action := Dict (only parsing).

Definition has_type (t : string) (a : Action) : bool :=
  match a !! "type" with
  | Some (VStr s) => String.eqb s t
  | _ => false
  end.

Definition count_type (t : string) (actions : list Action) : nat :=
  length (List.filter (has_type t) actions).

Definition contains_type (t : string) (actions : list Action) : bool :=
  existsb (has_type t) actions.

(** [itertools.zip_longest(xs, ys)]: pairs by position, the shorter
    sequence padded with [None]. *)
Fixpoint zip_longest {A B} (xs : list A) (ys : list B)
  : list (option A * option B) :=
  match xs, ys with
  | x :: xs, y :: ys => (Some x, Some y) :: zip_longest xs ys
  | xs, [] => map (fun x => (Some x, None)) xs
  | [], ys => map (fun y => (None, Some y)) ys
  end.

(** ** The skill *)

(** The attributes of [self] that the modelled methods read or assign.
    [bus] is the log of the messages emitted on the bus the skill is bound
    to, oldest first (the entry points below are registered on a bound bus
    only); [uuid4_calls] counts the identifiers drawn so far. *)
Record MycroftSkill := {
  name : string;
  skill_id : string;
  root_dir : string;
  config_core : Dict;
  dialog_renderer : option (string -> option Dict -> result string);
  _mycroft_session_id : Value;
  bus : list Message;
  uuid4_calls : nat
}.

Definition set_session_id (v : Value) (self : MycroftSkill) : MycroftSkill :=
  {| name := name self; skill_id := skill_id self; root_dir := root_dir self;
     config_core := config_core self; dialog_renderer := dialog_renderer self;
     _mycroft_session_id := v; bus := bus self;
     uuid4_calls := uuid4_calls self |}.

(** [self.bus.emit(m)]. *)
Definition emit (m : Message) (self : MycroftSkill) : MycroftSkill :=
  {| name := name self; skill_id := skill_id self; root_dir := root_dir self;
     config_core := config_core self; dialog_renderer := dialog_renderer self;
     _mycroft_session_id := _mycroft_session_id self; bus := bus self ++ [m];
     uuid4_calls := uuid4_calls self |}.

Definition draw_uuid (self : MycroftSkill) : MycroftSkill :=
  {| name := name self; skill_id := skill_id self; root_dir := root_dir self;
     config_core := config_core self; dialog_renderer := dialog_renderer self;
     _mycroft_session_id := _mycroft_session_id self; bus := bus self;
     uuid4_calls := S (uuid4_calls self) |}.

(** [self.lang]. *)
Definition lang (self : MycroftSkill) : Value := get (config_core self) "lang".

(** Computations on the skill: a result, or an exception, and the skill as
    the call left it. *)
Definition M (A : Type) : Type := MycroftSkill -> result A * MycroftSkill.

Definition ret {A} (a : A) : M A := fun self => (Ok a, self).

Definition raise {A} (e : Exception) : M A := fun self => (Raise e, self).

Definition bindM {A B} (m : M A) (k : A -> M B) : M B :=
  fun self =>
    match m self with
    | (Ok a, self) => k a self
    | (Raise e, self) => (Raise e, self)
    end.

(** [try: body except Exception: handler]. *)
Definition try_except {A} (body : M A) (handler : Exception -> M A) : M A :=
  fun self =>
    match body self with
    | (Ok a, self) => (Ok a, self)
    | (Raise e, self) => handler e self
    end.

(** A pure read of [self] that may raise. *)
Definition reads {A} (f : MycroftSkill -> result A) : M A :=
  fun self => (f self, self).

Definition modify (f : MycroftSkill -> MycroftSkill) : M unit :=
  fun self => (Ok tt, f self).

Declare Scope skill_scope.
Delimit Scope skill_scope with skill.
Notation "x <~ m ;; k" := (bindM m (fun x => k))
  (at level 100, m at next level, right associativity, only parsing)
  : skill_scope.
Notation "m ;;; k" := (bindM m (fun _ => k))
  (at level 100, right associativity, only parsing) : skill_scope.

(** The collaborators the skill calls and this file does not define. *)
Record Host := {
  path_exists : string -> bool;
    (* os.path.exists *)
  join : list string -> string;
    (* os.path.join *)
  walk : string -> list (string * list string);
    (* os.walk: the (path, files) of every directory, in walk order *)
  resolve_resource_file : Value -> option string;
  camel_case_split : string -> string;
  unmunge_message : Message -> string -> Message;
  uuid4 : nat -> string
    (* str(uuid4()), by the number of identifiers drawn before *)
}.

Section Skill.

Variable host : Host.

(** ** Resources *)

Definition _find_resource (self : MycroftSkill) (res_name lang : string)
    (res_dirname : option string) : option string :=
  let found :=
    match res_dirname with
    | Some res_dirname =>
        if str_truthy res_dirname then
          (* Try the old translated directory (dialog/vocab/regex) *)
          let path := join host [root_dir self; res_dirname; lang; res_name] in
          if path_exists host path then Some path
          else
            (* Try old-style non-translated resource *)
            let path := join host [root_dir self; res_dirname; res_name] in
            if path_exists host path then Some path else None
        else None
    | None => None
    end in
  match found with
  | Some path => Some path
  | None =>
      (* New scheme: search for res_name under the 'locale' folder *)
      let root_path := join host [root_dir self; "locale"; lang] in
      match List.find (fun '(_, files) => bool_decide (res_name ∈ files))
                      (walk host root_path) with
      | Some (path, _) => Some (join host [path; res_name])
      | None => None
      end
  end.

(** [find_resource]: the path of a resource file, [None] when there is
    none.  A configured language that is not a string makes [join] raise. *)
Definition find_resource (self : MycroftSkill) (res_name : string)
    (res_dirname : option string) : result (option string) :=
  match lang self with
  | VStr lang =>
      let result := _find_resource self res_name lang res_dirname in
      if negb (opt_str_truthy result) && negb (String.eqb lang "en-us") then
        (* when resource not found try fallback to en-us *)
        Ok (_find_resource self res_name "en-us" res_dirname)
      else Ok result
  | _ => Raise (TypeError "join() argument must be str")
  end.

(** [self.dialog_renderer.render(dialog_name, dialog_data)]. *)
Definition render (self : MycroftSkill) (dialog_name : string)
    (dialog_data : option Dict) : result string :=
  match dialog_renderer self with
  | Some renderer => renderer dialog_name dialog_data
  | None => Raise (AttributeError "'NoneType' object has no attribute 'render'")
  end.

(** ** The action compiler *)

(** The body of the loop over [zip_longest(dialogs, guis)]: the page of the
    position, then its dialog. *)
Definition interleave_step (self : MycroftSkill) (speak_wait : bool)
    (actions : list Action)
    (position : option SessionDialogType * option SessionGuiType)
  : result (list Action) :=
  let '(maybe_dialog, maybe_gui) := position in
  actions <-
    match maybe_gui with
    | Some maybe_gui =>
        let '(gui_page, gui_data) :=
          match maybe_gui with
          | gui_str page => (page, None)
          | gui_tuple page gui_data => (page, gui_data)
          end in
        found <- find_resource self gui_page (Some "ui") ;;
        match found with
        | Some path =>
            Ok (actions ++
                [ ({[ "type" := VStr "show_page";
                      "page" := VStr ("file://" +:+ path);
                      "data" := of_opt_dict gui_data;
                      "namespace" := VStr (skill_id self +:+ "." +:+ gui_page)
                   ]} : Dict) ])
        | None => Raise (TypeError "can only concatenate str to str")
        end
    | None => Ok actions
    end ;;
  match maybe_dialog with
  | Some maybe_dialog =>
      let '(dialog_name, dialog_data) :=
        match maybe_dialog with
        | dialog_str name => (name, Some ∅)
        | dialog_tuple name dialog_data => (name, dialog_data)
        end in
      utterance <- render self dialog_name dialog_data ;;
      Ok (actions ++
          [ ({[ "type" := VStr "speak";
                "utterance" := VStr utterance;
                "dialog" := VStr dialog_name;
                "wait" := VBool speak_wait ]} : Dict) ])
  | None => Ok actions
  end.

Fixpoint interleave (self : MycroftSkill) (speak_wait : bool)
    (pairs : list (option SessionDialogType * option SessionGuiType))
    (actions : list Action) : result (list Action) :=
  match pairs with
  | [] => Ok actions
  | position :: pairs =>
      actions <- interleave_step self speak_wait actions position ;;
      interleave self speak_wait pairs actions
  end.

(** The ["data"] of a message action: the session id first, the message's
    own data spread over it. *)
Definition message_action_data (self : MycroftSkill) (message : Message)
  : Dict :=
  spread {[ "mycroft_session_id" := _mycroft_session_id self ]} (data message).

Definition _build_actions (self : MycroftSkill)
    (dialog : option SessionDialogsType)
    (speak : option string)
    (speak_wait : bool)
    (gui : option SessionGuisType)
    (gui_clear : GuiClear)
    (audio_alert : option string)
    (music_uri : option string)
    (message : option Message)
    (message_send : MessageSend.t)
    (message_delay : float)
    (expect_response : bool) : result (list Action) :=
  let actions : list Action := [] in
  let gui_clear :=
    if expect_response && bool_decide (gui_clear = AUTO) then
      (* Don't clear GUI if a response is needed from the user *)
      NEVER
    else gui_clear in
  (* 1. Send message *)
  let actions :=
    match message with
    | Some message =>
        if bool_decide (message_send = MessageSend.AT_START) then
          actions ++
          [ ({[ "type" := VStr "message";
                "message_type" := VStr (msg_type message);
                "data" := VDict (message_action_data self message) ]} : Dict) ]
        else actions
    | None => actions
    end in
  (* 2. Clear gui (if "at_start") *)
  let actions :=
    if bool_decide (gui_clear = AT_START) then
      actions ++ [ ({[ "type" := VStr "clear_display" ]} : Dict) ]
    else actions in
  (* 3. Play audio alert *)
  let actions :=
    match audio_alert with
    | Some uri =>
        if str_truthy uri then
          actions ++
          [ ({[ "type" := VStr "audio_alert"; "uri" := VStr uri;
                "wait" := VBool true ]} : Dict) ]
        else actions
    | None => actions
    end in
  (* 4. Show gui page(s) *)
  let guis :=
    match gui with
    | Some (one_gui g) => [g]
    | Some (gui_seq gs) => gs
    | None => []
    end in
  (* 5. Speak dialog(s) or text *)
  let dialogs :=
    match dialog with
    | Some (one_dialog d) => [d]
    | Some (dialog_seq ds) => ds
    | None => []
    end in
  (* Interleave dialog/gui pages *)
  actions <- interleave self speak_wait (zip_longest dialogs guis) actions ;;
  let actions :=
    match speak with
    | Some speak =>
        actions ++
        [ ({[ "type" := VStr "speak"; "utterance" := VStr speak;
              "wait" := VBool speak_wait ]} : Dict) ]
    | None => actions
    end in
  let actions :=
    match message with
    | Some message =>
        if bool_decide (message_send = MessageSend.AT_END) then
          actions ++
          [ ({[ "type" := VStr "message";
                "message_type" := VStr (msg_type message);
                "delay" := VFloat message_delay;
                "data" := VDict (message_action_data self message) ]} : Dict) ]
        else actions
    | None => actions
    end in
  let actions :=
    match music_uri with
    | Some uri =>
        if str_truthy uri then
          actions ++
          [ ({[ "type" := VStr "stream_music"; "uri" := VStr uri ]} : Dict) ]
        else actions
    | None => actions
    end in
  let actions :=
    if expect_response then
      actions ++ [ ({[ "type" := VStr "get_response" ]} : Dict) ]
    else actions in
  let gui_clear :=
    if bool_decide (gui_clear = AUTO) then
      match guis with
      | _ :: _ =>
          if (match dialogs with _ :: _ => true | [] => false end)
             || (match speak with Some _ => true | None => false end)
          then AT_END    (* TTS, wait for speak *)
          else ON_IDLE   (* No TTS, so time out on idle *)
      | [] => NEVER      (* No GUI, don't clear *)
      end
    else gui_clear in
  let actions :=
    if bool_decide (gui_clear = AT_END) then
      actions ++ [ ({[ "type" := VStr "clear_display" ]} : Dict) ]
    else if bool_decide (gui_clear = ON_IDLE) then
      actions ++ [ ({[ "type" := VStr "wait_for_idle" ]} : Dict) ]
    else actions in
  Ok actions.

(** ** Session envelopes *)

(** The methods of this section that emit do so on the bus of a bound
    skill, where the property [bus] returns; [Lifecycle], further down,
    has them for a skill that may not be bound. *)
Definition play_sound_uri (uri : string) : M unit :=
  fun self =>
    (Ok tt,
     emit {| msg_type := "mycroft.audio.play-sound";
             data := {[ "uri" := VStr uri;
                        "mycroft_session_id" := _mycroft_session_id self ]} |}
          self).

(** [acknowledge]: play the configured sound for a handled request. *)
Definition acknowledge : M unit :=
  fun self =>
    match get (config_core self) "sounds" with
    | VDict sounds =>
        let acknowledge := get sounds "acknowledge" in
        if truthy acknowledge then
          match resolve_resource_file host acknowledge with
          | Some audio_file =>
              if str_truthy audio_file then
                play_sound_uri ("file://" +:+ audio_file) self
              else (Ok tt, self)   (* Could not find 'acknowledge' audio file! *)
          | None => (Ok tt, self)
          end
        else (Ok tt, self)
    | _ => (Raise (AttributeError "object has no attribute 'get'"), self)
    end.

Definition emit_start_session
    (dialog : option SessionDialogsType)
    (speak : option string)
    (speak_wait : bool)
    (gui : option SessionGuisType)
    (gui_clear : GuiClear)
    (audio_alert : option string)
    (music_uri : option string)
    (expect_response : bool)
    (message : option Message)
    (continue_session : bool)
    (message_send : MessageSend.t)
    (message_delay : float)
    (mycroft_session_id : option string) : M string :=
  fun self =>
    let '(mycroft_session_id, self) :=
      match mycroft_session_id with
      | Some id => (id, self)
      | None => (uuid4 host (uuid4_calls self), draw_uuid self)
      end in
    match _build_actions self dialog speak speak_wait gui gui_clear
            audio_alert music_uri message message_send message_delay
            expect_response with
    | Ok actions =>
        let message :=
          {| msg_type := "mycroft.session.start";
             data := {[ "mycroft_session_id" := VStr mycroft_session_id;
                        "skill_id" := VStr (skill_id self);
                        "actions" := VList (VDict <$> actions);
                        "continue_session" := VBool continue_session ]} |} in
        (Ok mycroft_session_id, emit message self)
    | Raise e => (Raise e, self)
    end.

Definition continue_session (self : MycroftSkill)
    (dialog : option SessionDialogsType)
    (speak : option string)
    (speak_wait : bool)
    (gui : option SessionGuisType)
    (gui_clear : GuiClear)
    (audio_alert : option string)
    (music_uri : option string)
    (expect_response : bool)
    (message : option Message)
    (message_send : MessageSend.t)
    (message_delay : float)
    (mycroft_session_id : option string)
    (state : option Dict) : result Message :=
  let mycroft_session_id :=
    match mycroft_session_id with
    | Some id => VStr id
    | None => _mycroft_session_id self   (* Use session from latest intent handler *)
    end in
  actions <- _build_actions self dialog speak speak_wait gui gui_clear
               audio_alert music_uri message message_send message_delay
               expect_response ;;
  Ok {| msg_type := "mycroft.session.continue";
        data := {[ "mycroft_session_id" := mycroft_session_id;
                   "skill_id" := VStr (skill_id self);
                   "actions" := VList (VDict <$> actions);
                   "state" := of_opt_dict state ]} |}.

Definition end_session (self : MycroftSkill)
    (dialog : option SessionDialogsType)
    (speak : option string)
    (speak_wait : bool)
    (gui : option SessionGuisType)
    (gui_clear : GuiClear)
    (audio_alert : option string)
    (music_uri : option string)
    (message : option Message)
    (message_send : MessageSend.t)
    (message_delay : float)
    (mycroft_session_id : option string) : result Message :=
  let mycroft_session_id :=
    match mycroft_session_id with
    | Some id => VStr id
    | None => _mycroft_session_id self   (* Use session from latest intent handler *)
    end in
  actions <- _build_actions self dialog speak speak_wait gui gui_clear
               audio_alert music_uri message message_send message_delay
               false ;;
  Ok {| msg_type := "mycroft.session.end";
        data := {[ "mycroft_session_id" := mycroft_session_id;
                   "skill_id" := VStr (skill_id self);
                   "actions" := VList (VDict <$> actions) ]} |}.

(** [self.end_session()], every argument at its default. *)
Definition end_session_default (self : MycroftSkill) : result Message :=
  end_session self None None true None AUTO None None None
    MessageSend.AT_START 0%float None.

Definition abort_session (self : MycroftSkill) : result Message :=
  message <- end_session_default self ;;
  Ok {| msg_type := msg_type message;
        data := <[ "aborted" := VBool true ]> (data message) |}.

(** [stop], as the base class defines it; a subclass may override it. *)
Definition stop : M (option Message) :=
  reads (fun self =>
           message <- end_session self None None true None AT_END None None
                        None MessageSend.AT_START 0%float None ;;
           Ok (Some message)).

(** [raw_utterance], as the base class defines it. *)
Definition raw_utterance (utterance state : Value) : M (option Message) :=
  ret None.

(** ** Bus entry points *)

Open Scope skill_scope.

(** The handler [_add_intent_handler] registers under the intent's name. *)
Definition _handle_intent (intent_name : string)
    (handler : Message -> M (option Message)) (message : Message) : M unit :=
  modify (set_session_id (get (data message) "mycroft_session_id")) ;;;
  result_message <~
    try_except
      (acknowledge ;;;
       message <~ reads (fun self =>
                           Ok (unmunge_message host message (skill_id self))) ;;
       handler message)
      (fun _ =>
         (* Speak error *)
         skill <~ reads (fun self => Ok (camel_case_split host (name self))) ;;
         emit_start_session
           (Some (one_dialog
                    (dialog_tuple "skill.error"
                                  (Some {[ "skill" := VStr skill ]}))))
           None true None AUTO None None false None false
           MessageSend.AT_START 0%float None ;;;
         ret None) ;;
  result_message <~
    match result_message with
    | Some result_message => ret result_message
    | None => reads end_session_default
    end ;;
  modify (emit result_message).

(** The handler of [mycroft.skill.stop]; [stop] is the skill's own. *)
Definition __handle_skill_stop (stop : M (option Message))
    (message : Message) : M unit :=
  fun self =>
    if py_eq (get (data message) "skill_id") (VStr (skill_id self)) then
      (modify (set_session_id (get (data message) "mycroft_session_id")) ;;;
       result_message <~ try_except stop (fun _ => ret None) ;;
       result_message <~
         match result_message with
         | Some result_message => ret result_message
         | None => reads end_session_default
         end ;;
       modify (emit result_message)) self
    else (Ok tt, self).

(** The handler of [mycroft.skill-response]: verifies that the raw
    utterance is for this skill; [raw_utterance] is the skill's own. *)
Definition __handle_skill_response
    (raw_utterance : Value -> Value -> M (option Message))
    (message : Message) : M unit :=
  fun self =>
    if py_eq (get (data message) "skill_id") (VStr (skill_id self))
       && py_eq (get (data message) "mycroft_session_id")
                (_mycroft_session_id self)
    then
      (let utterances := get_default (data message) "utterances" (VList []) in
       utterance <~ (if truthy utterances then reads (fun _ => index0 utterances)
                     else ret VNone) ;;
       let state := get (data message) "state" in
       result_message <~
         try_except
           (acknowledge ;;; raw_utterance utterance state)
           (fun _ => ret None) ;;
       result_message <~
         match result_message with
         | Some result_message => ret result_message
         | None => reads end_session_default
         end ;;
       modify (emit result_message)) self
    else (Ok tt, self).

Close Scope skill_scope.

End Skill.

(** ** Before [bind]

    [__init__] sets [self._bus = None]; [bind], given a bus, sets it and
    registers the handlers of the previous section, which therefore only
    ever run on a bound skill: the definitions above model that skill, and
    [emit] is its bus.  The public methods that emit can also be called on
    a skill that has not been bound, where the property [bus] raises.
    Below, [bound] tells whether [self._bus] is set. *)
Module Lifecycle.

Section Lifecycle.

Variable host : Host.
Variable bound : bool.

(** [self.bus.emit(m)], through the property [bus]. *)
Definition bus_emit (m : Message) : M unit :=
  fun self =>
    if bound then (Ok tt, emit m self)
    else
      (* Skill not fully initialized. *)
      (Raise (PlainException "Accessed MycroftSkill.bus in __init__"), self).

Definition play_sound_uri (uri : string) : M unit :=
  fun self =>
    bus_emit {| msg_type := "mycroft.audio.play-sound";
                data := {[ "uri" := VStr uri;
                           "mycroft_session_id" := _mycroft_session_id self ]} |}
             self.

Definition acknowledge : M unit :=
  fun self =>
    match get (config_core self) "sounds" with
    | VDict sounds =>
        let acknowledge := get sounds "acknowledge" in
        if truthy acknowledge then
          match resolve_resource_file host acknowledge with
          | Some audio_file =>
              if str_truthy audio_file then
                play_sound_uri ("file://" +:+ audio_file) self
              else (Ok tt, self)   (* Could not find 'acknowledge' audio file! *)
          | None => (Ok tt, self)
          end
        else (Ok tt, self)
    | _ => (Raise (AttributeError "object has no attribute 'get'"), self)
    end.

Definition emit_start_session
    (dialog : option SessionDialogsType)
    (speak : option string)
    (speak_wait : bool)
    (gui : option SessionGuisType)
    (gui_clear : GuiClear)
    (audio_alert : option string)
    (music_uri : option string)
    (expect_response : bool)
    (message : option Message)
    (continue_session : bool)
    (message_send : MessageSend.t)
    (message_delay : float)
    (mycroft_session_id : option string) : M string :=
  fun self =>
    let '(mycroft_session_id, self) :=
      match mycroft_session_id with
      | Some id => (id, self)
      | None => (uuid4 host (uuid4_calls self), draw_uuid self)
      end in
    match _build_actions host self dialog speak speak_wait gui gui_clear
            audio_alert music_uri message message_send message_delay
            expect_response with
    | Ok actions =>
        let message :=
          {| msg_type := "mycroft.session.start";
             data := {[ "mycroft_session_id" := VStr mycroft_session_id;
                        "skill_id" := VStr (skill_id self);
                        "actions" := VList (VDict <$> actions);
                        "continue_session" := VBool continue_session ]} |} in
        match bus_emit message self with
        | (Ok _, self) => (Ok mycroft_session_id, self)
        | (Raise e, self) => (Raise e, self)
        end
    | Raise e => (Raise e, self)
    end.

End Lifecycle.

End Lifecycle.

(** ** Reading action lists and envelopes *)

(** The sequences the compiler pairs up: one item or a sequence, as a list. *)
Definition guis_of (gui : option SessionGuisType) : list SessionGuiType :=
  match gui with
  | Some (one_gui g) => [g]
  | Some (gui_seq gs) => gs
  | None => []
  end.

Definition dialogs_of (dialog : option SessionDialogsType)
  : list SessionDialogType :=
  match dialog with
  | Some (one_dialog d) => [d]
  | Some (dialog_seq ds) => ds
  | None => []
  end.

(** The action dictionaries under ["actions"] in an envelope. *)
Definition envelope_actions (m : Message) : list Action :=
  match data m !! "actions" with
  | Some (VList vs) =>
      omap (fun v => match v with VDict d => Some d | _ => None end) vs
  | _ => []
  end.

(** The three session envelopes. *)
Definition is_envelope (m : Message) : bool :=
  String.eqb (msg_type m) "mycroft.session.start"
  || String.eqb (msg_type m) "mycroft.session.continue"
  || String.eqb (msg_type m) "mycroft.session.end".

(** The action dictionaries, by kind, as the compiler writes them. *)
Definition clear_display_action : Action := {[ "type" := VStr "clear_display" ]}.
Definition wait_for_idle_action : Action := {[ "type" := VStr "wait_for_idle" ]}.
Definition get_response_action : Action := {[ "type" := VStr "get_response" ]}.

Definition stream_music_action (uri : string) : Action :=
  {[ "type" := VStr "stream_music"; "uri" := VStr uri ]}.

Definition audio_alert_action (uri : string) : Action :=
  {[ "type" := VStr "audio_alert"; "uri" := VStr uri; "wait" := VBool true ]}.

Definition speak_action (utterance : string) (wait : bool) : Action :=
  {[ "type" := VStr "speak"; "utterance" := VStr utterance;
     "wait" := VBool wait ]}.

Definition speak_dialog_action (utterance dialog_name : string) (wait : bool)
  : Action :=
  {[ "type" := VStr "speak"; "utterance" := VStr utterance;
     "dialog" := VStr dialog_name; "wait" := VBool wait ]}.

Definition show_page_action (self : MycroftSkill) (path gui_page : string)
    (gui_data : option Dict) : Action :=
  {[ "type" := VStr "show_page"; "page" := VStr ("file://" +:+ path);
     "data" := of_opt_dict gui_data;
     "namespace" := VStr (skill_id self +:+ "." +:+ gui_page) ]}.

Definition message_start_action (self : MycroftSkill) (message : Message)
  : Action :=
  {[ "type" := VStr "message"; "message_type" := VStr (msg_type message);
     "data" := VDict (message_action_data self message) ]}.

Definition message_end_action (self : MycroftSkill) (message : Message)
    (message_delay : float) : Action :=
  {[ "type" := VStr "message"; "message_type" := VStr (msg_type message);
     "delay" := VFloat message_delay;
     "data" := VDict (message_action_data self message) ]}.

(** ** A skill to run the definitions on *)

Module Demo.

Definition host : Host := {|
  path_exists := fun path => String.eqb path "/opt/skill/ui/g1";
  join := fun parts => String.concat "/" parts;
  walk := fun _ => [];
  resolve_resource_file := fun _ => None;
  camel_case_split := fun s => s;
  unmunge_message := fun m _ => m;
  uuid4 := fun n => String.concat "" (replicate (S n) "u")
|}.

Definition skill : MycroftSkill := {|
  name := "Demo"; skill_id := "demo"; root_dir := "/opt/skill";
  config_core := {[ "lang" := VStr "en-us"; "sounds" := VDict ∅ ]};
  dialog_renderer := Some (fun dialog_name _ => Ok ("say " +:+ dialog_name));
  _mycroft_session_id := VStr "R"; bus := []; uuid4_calls := 0
|}.

(** A bus message with a payload of its own. *)
Definition notice : Message :=
  {| msg_type := "demo.notice"; data := {[ "mycroft_session_id" := VStr "own" ]} |}.

(** An intent request of session ["R"]. *)
Definition request : Message :=
  {| msg_type := "demo:intent";
     data := {[ "mycroft_session_id" := VStr "R"; "utterance" := VStr "hi" ]} |}.

(** An intent handler that raises. *)
Definition failing_handler (message : Message) : M (option Message) :=
  raise (RuntimeError "boom").

End Demo.

(** ** The layout of a compiled action list *)

(** The policy in force once [expect_response] has been taken into account. *)
Definition effective_clear (expect_response : bool) (gui_clear : GuiClear)
  : GuiClear :=
  if expect_response && bool_decide (gui_clear = AUTO) then NEVER else gui_clear.

(** The policy [AUTO] stands for, given what was compiled. *)
Definition resolve_clear (gui_clear : GuiClear) (guis : list SessionGuiType)
    (dialogs : list SessionDialogType) (speak : option string) : GuiClear :=
  if bool_decide (gui_clear = AUTO) then
    match guis with
    | _ :: _ =>
        if (match dialogs with _ :: _ => true | [] => false end)
           || (match speak with Some _ => true | None => false end)
        then AT_END else ON_IDLE
    | [] => NEVER
    end
  else gui_clear.

(** The actions each numbered step of the compiler contributes. *)
Definition seg_message_start (self : MycroftSkill) (message : option Message)
    (message_send : MessageSend.t) : list Action :=
  match message with
  | Some message =>
      if bool_decide (message_send = MessageSend.AT_START)
      then [message_start_action self message] else []
  | None => []
  end.

Definition seg_message_end (self : MycroftSkill) (message : option Message)
    (message_send : MessageSend.t) (message_delay : float) : list Action :=
  match message with
  | Some message =>
      if bool_decide (message_send = MessageSend.AT_END)
      then [message_end_action self message message_delay] else []
  | None => []
  end.

Definition seg_clear_start (gui_clear : GuiClear) : list Action :=
  if bool_decide (gui_clear = AT_START) then [clear_display_action] else [].

Definition seg_uri (uri : option string) (action : string -> Action)
  : list Action :=
  match uri with
  | Some uri => if str_truthy uri then [action uri] else []
  | None => []
  end.

Definition seg_speak (speak : option string) (speak_wait : bool)
  : list Action :=
  match speak with
  | Some speak => [speak_action speak speak_wait]
  | None => []
  end.

Definition seg_get_response (expect_response : bool) : list Action :=
  if expect_response then [get_response_action] else [].

Definition seg_trailing (gui_clear : GuiClear) : list Action :=
  if bool_decide (gui_clear = AT_END) then [clear_display_action]
  else if bool_decide (gui_clear = ON_IDLE) then [wait_for_idle_action]
  else [].

(** What follows an [at_end] message action. *)
Definition after_message_end (music_uri : option string)
    (expect_response : bool) (resolved : GuiClear) : list Action :=
  seg_uri music_uri stream_music_action ++ seg_get_response expect_response
  ++ seg_trailing resolved.

(** The whole list around the interleaved block [body]. *)
Definition layout (self : MycroftSkill)
    (dialog : option SessionDialogsType) (speak : option string)
    (speak_wait : bool) (gui : option SessionGuisType) (gui_clear : GuiClear)
    (audio_alert music_uri : option string) (message : option Message)
    (message_send : MessageSend.t) (message_delay : float)
    (expect_response : bool) (body : list Action) : list Action :=
  let effective := effective_clear expect_response gui_clear in
  seg_message_start self message message_send
  ++ seg_clear_start effective
  ++ seg_uri audio_alert audio_alert_action
  ++ body
  ++ seg_speak speak speak_wait
  ++ seg_message_end self message message_send message_delay
  ++ after_message_end music_uri expect_response
       (resolve_clear effective (guis_of gui) (dialogs_of dialog) speak).

(** The page and data of a GUI item, the name and data of a dialog item. *)
Definition gui_item (g : SessionGuiType) : string * option Dict :=
  match g with
  | gui_str page => (page, None)
  | gui_tuple page gui_data => (page, gui_data)
  end.

Definition dialog_item (d : SessionDialogType) : string * option Dict :=
  match d with
  | dialog_str name => (name, Some ∅)
  | dialog_tuple name dialog_data => (name, dialog_data)
  end.

(** The [show_page] action of a position: none when the position has no GUI
    item, an error when its page does not resolve. *)
Definition show_of (host : Host) (self : MycroftSkill)
    (maybe_gui : option SessionGuiType) : result (list Action) :=
  match maybe_gui with
  | Some g =>
      found <- find_resource host self (gui_item g).1 (Some "ui") ;;
      match found with
      | Some path =>
          Ok [show_page_action self path (gui_item g).1 (gui_item g).2]
      | None => Raise (TypeError "can only concatenate str to str")
      end
  | None => Ok []
  end.

(** The [speak] action of a position: none when it has no dialog item, an
    error when the dialog does not render. *)
Definition speak_of (self : MycroftSkill) (speak_wait : bool)
    (maybe_dialog : option SessionDialogType) : result (list Action) :=
  match maybe_dialog with
  | Some d =>
      utterance <- render self (dialog_item d).1 (dialog_item d).2 ;;
      Ok [speak_dialog_action utterance (dialog_item d).1 speak_wait]
  | None => Ok []
  end.

(** Every action of the interleaved block shows a page or speaks. *)
Definition page_or_speech (a : Action) : Prop :=
  exists s, s ∈ ["show_page"; "speak"] /\ a !! "type" = Some (VStr s).

(** A page that resolves, a dialog that renders. *)
Definition resolves (host : Host) (self : MycroftSkill) (g : SessionGuiType)
  : Prop :=
  exists path, find_resource host self (gui_item g).1 (Some "ui") = Ok (Some path).

Definition renders (self : MycroftSkill) (d : SessionDialogType) : Prop :=
  exists utterance,
    render self (dialog_item d).1 (dialog_item d).2 = Ok utterance.

(** The numbered steps of the compiler, each as a function of the list
    built so far. *)
Definition step_message_start (self : MycroftSkill) (message : option Message)
    (message_send : MessageSend.t) (actions : list Action) : list Action :=
  match message with
  | Some message =>
      if bool_decide (message_send = MessageSend.AT_START)
      then actions ++ [message_start_action self message] else actions
  | None => actions
  end.

Definition step_message_end (self : MycroftSkill) (message : option Message)
    (message_send : MessageSend.t) (message_delay : float)
    (actions : list Action) : list Action :=
  match message with
  | Some message =>
      if bool_decide (message_send = MessageSend.AT_END)
      then actions ++ [message_end_action self message message_delay]
      else actions
  | None => actions
  end.

Definition step_clear_start (gui_clear : GuiClear) (actions : list Action)
  : list Action :=
  if bool_decide (gui_clear = AT_START) then actions ++ [clear_display_action]
  else actions.

Definition step_uri (uri : option string) (action : string -> Action)
    (actions : list Action) : list Action :=
  match uri with
  | Some uri => if str_truthy uri then actions ++ [action uri] else actions
  | None => actions
  end.

Definition step_speak (speak : option string) (speak_wait : bool)
    (actions : list Action) : list Action :=
  match speak with
  | Some speak => actions ++ [speak_action speak speak_wait]
  | None => actions
  end.

Definition step_get_response (expect_response : bool)
    (actions : list Action) : list Action :=
  if expect_response then actions ++ [get_response_action] else actions.

Definition step_trailing (gui_clear : GuiClear) (actions : list Action)
  : list Action :=
  if bool_decide (gui_clear = AT_END) then actions ++ [clear_display_action]
  else if bool_decide (gui_clear = ON_IDLE)
       then actions ++ [wait_for_idle_action]
       else actions.

(** ** Counting, positions and envelopes *)

(** One action of kind [kind], when [present], counted as kind [t]. *)
Definition tally (present : bool) (kind t : string) : nat :=
  if String.eqb kind t then (if present then 1 else 0) else 0.

Definition is_some {A} (o : option A) : bool :=
  match o with Some _ => true | None => false end.

(** Whether any page was shown, and whether any speech occurred. *)
Definition pages_shown (gui : option SessionGuisType) : bool :=
  match guis_of gui with _ :: _ => true | [] => false end.

Definition speech_occurred (dialog : option SessionDialogsType)
    (speak : option string) : bool :=
  (match dialogs_of dialog with _ :: _ => true | [] => false end)
  || is_some speak.

(** The policy [AUTO] resolves to. *)
Definition auto_policy (dialog : option SessionDialogsType)
    (speak : option string) (gui : option SessionGuisType) : GuiClear :=
  if pages_shown gui then
    if speech_occurred dialog speak then AT_END else ON_IDLE
  else NEVER.

(** The actions of the positions [positions], in order. *)
Fixpoint collect (at_position : nat -> result (list Action))
    (positions : list nat) : result (list Action) :=
  match positions with
  | [] => Ok []
  | i :: positions =>
      here <- at_position i ;;
      rest <- collect at_position positions ;;
      Ok (here ++ rest)
  end.

(** The interleaved block in the words of the specification: for each
    position up to the longer of the two sequences, the [show_page] action of
    the GUI item at that position, when there is one, and then the [speak]
    action of the dialog item at that position, when there is one. *)
Definition positional_block (host : Host) (self : MycroftSkill)
    (speak_wait : bool) (dialogs : list SessionDialogType)
    (guis : list SessionGuiType) : result (list Action) :=
  collect (fun i =>
             shown <- show_of host self (guis !! i) ;;
             spoken <- speak_of self speak_wait (dialogs !! i) ;;
             Ok (shown ++ spoken))
          (seq 0 (max (length dialogs) (length guis))).

(** A reply handler that would leave a trace if it were called. *)
Definition tracing_reply (utterance state : Value) : M (option Message) :=
  fun self =>
    (Ok None, emit {| msg_type := "demo.called"; data := ∅ |} self).

(** What the intent wrapper does before the handler runs: it records the
    request's session id and acknowledges the request. *)
Definition intent_prologue (host : Host) (inbound : Message) : M unit :=
  bindM (modify (set_session_id (get (data inbound) "mycroft_session_id")))
         (fun _ => acknowledge host).

(** The envelope that speaks the error of a failed handler, in a session of
    its own, and the empty envelope that ends the request's session. *)
Definition error_start_envelope (host : Host) (self : MycroftSkill)
    (utterance : string) : Message :=
  {| msg_type := "mycroft.session.start";
     data := {[ "mycroft_session_id" := VStr (uuid4 host (uuid4_calls self));
                "skill_id" := VStr (skill_id self);
                "actions" :=
                  VList [VDict (speak_dialog_action utterance "skill.error"
                                  true)];
                "continue_session" := VBool false ]} |}.

Definition empty_end_envelope (self : MycroftSkill) : Message :=
  {| msg_type := "mycroft.session.end";
     data := {[ "mycroft_session_id" := _mycroft_session_id self;
                "skill_id" := VStr (skill_id self);
                "actions" := VList [] ]} |}.

(** An intent handler that does some work of its own and then returns
    [self.continue_session(...)] with no explicit session id. *)
Definition continuing_handler (host : Host) (work : Message -> M unit)
    (dialog : option SessionDialogsType) (speak : option string)
    (speak_wait : bool) (gui : option SessionGuisType) (gui_clear : GuiClear)
    (audio_alert music_uri : option string) (expect_response : bool)
    (message : option Message) (message_send : MessageSend.t)
    (message_delay : float) (state : option Dict)
    (request : Message) : M (option Message) :=
  bindM (work request)
    (fun _ =>
       reads (fun self =>
                envelope <- continue_session host self dialog speak speak_wait
                              gui gui_clear audio_alert music_uri
                              expect_response message message_send
                              message_delay None state ;;
                Ok (Some envelope))).

(** ** Further methods of the skill *)

(** [self.location]. *)
Definition location (self : MycroftSkill) : Value :=
  get (config_core self) "location".

(** [v[key]] for a string [key]. *)
Definition getitem (v : Value) (key : string) : result Value :=
  match v with
  | VDict d =>
      match d !! key with
      | Some x => Ok x
      | None => Raise (KeyError key)
      end
  | VStr _ => Raise (TypeError "string indices must be integers")
  | VList _ => Raise (TypeError "list indices must be integers or slices")
  | _ => Raise (TypeError "object is not subscriptable")
  end.

(** [location_pretty]: a more 'human' version of the location. *)
Definition location_pretty (self : MycroftSkill) : result Value :=
  let loc := location self in
  match loc with
  | VDict _ =>
      city <- getitem loc "city" ;;
      if truthy city then
        city <- getitem loc "city" ;;
        getitem city "name"
      else Ok VNone
  | _ => Ok VNone
  end.

(** [location_timezone]: the timezone code, such as 'America/Los_Angeles'. *)
Definition location_timezone (self : MycroftSkill) : result Value :=
  let loc := location self in
  match loc with
  | VDict _ =>
      timezone <- getitem loc "timezone" ;;
      if truthy timezone then
        timezone <- getitem loc "timezone" ;;
        getitem timezone "code"
      else Ok VNone
  | _ => Ok VNone
  end.

(** [alphanumeric_skill_id]: the skill id with every character that is not
    alphanumeric replaced by an underscore.  [isalnum] is [str.isalnum] on
    one character. *)
Definition alphanumeric_skill_id (isalnum : Ascii.ascii -> bool)
    (self : MycroftSkill) : string :=
  String.concat ""
    (map (fun char => if isalnum char then String char "" else "_")
         (String.list_ascii_of_string (skill_id self))).

(** [simple_trace]: a simplified traceback.  [strip] is [str.strip]. *)
Definition simple_trace (strip : string -> string)
    (stack_trace : list string) : string :=
  let stack_trace := removelast stack_trace in
  let tb := "Traceback:" +:+ String (Ascii.ascii_of_nat 10) "" in
  fold_left (fun tb line => if str_truthy (strip line) then tb +:+ line else tb)
            stack_trace tb.

(** ** A second skill, with resources on disk

    A German weather skill: translated resources under [locale/de-de], an
    English dialog in the old [dialog/en-us] directory, a configured
    location and acknowledge sound. *)
Module Sample.

Definition disk : Host := {|
  path_exists := fun path =>
    bool_decide (path ∈ ["/opt/wetter/dialog/en-us/hello.dialog";
                         "/opt/wetter/vocab/de-de/ja.voc";
                         "/opt/wetter/vocab/ja.voc"]);
  join := fun parts => String.concat "/" parts;
  walk := fun root =>
    if String.eqb root "/opt/wetter/locale/de-de" then
      [("/opt/wetter/locale/de-de", ["skill.error.dialog"]);
       ("/opt/wetter/locale/de-de/vocab", ["nein.voc"])]
    else [];
  resolve_resource_file := fun res_name =>
    match res_name with
    | VStr res_name => Some ("/opt/mycroft/res/" +:+ res_name)
    | _ => None
    end;
  camel_case_split := fun s => s;
  unmunge_message := fun m _ => m;
  uuid4 := fun n => String.concat "" (replicate (S n) "u")
|}.

Definition wetter : MycroftSkill := {|
  name := "Wetter"; skill_id := "wetter-skill.mycroftai";
  root_dir := "/opt/wetter";
  config_core :=
    {[ "lang" := VStr "de-de";
       "location" := VDict {[ "city" := VDict {[ "name" := VStr "Berlin" ]} ]};
       "sounds" := VDict {[ "acknowledge" := VStr "snd/acknowledge.mp3" ]} ]};
  dialog_renderer := Some (fun dialog_name _ => Ok ("sag " +:+ dialog_name));
  _mycroft_session_id := VStr "W"; bus := []; uuid4_calls := 0
|}.

(** The skill registered under its alphanumeric id, with a bare
    configuration: no location and no sounds. *)
Definition renamed : MycroftSkill := {|
  name := "Wetter"; skill_id := "wetter_skill_mycroftai";
  root_dir := "/opt/wetter";
  config_core := {[ "lang" := VStr "de-de" ]};
  dialog_renderer := Some (fun dialog_name _ => Ok ("sag " +:+ dialog_name));
  _mycroft_session_id := VStr "W"; bus := []; uuid4_calls := 0
|}.

(** [str.isalnum] on an ASCII character. *)
Definition isalnum (char : Ascii.ascii) : bool :=
  let code := Ascii.nat_of_ascii char in
  (48 <=? code) && (code <=? 57) || (65 <=? code) && (code <=? 90)
  || (97 <=? code) && (code <=? 122).

(** A stop request and a reply to a question, for the demo skill. *)
Definition stop_request : Message :=
  {| msg_type := "mycroft.skill.stop";
     data := {[ "skill_id" := VStr "demo";
                "mycroft_session_id" := VStr "S" ]} |}.

Definition reply : Message :=
  {| msg_type := "mycroft.skill-response";
     data := {[ "skill_id" := VStr "demo";
                "mycroft_session_id" := VStr "R";
                "utterances" := VList [VStr "yes"; VStr "jess"];
                "state" := VDict {[ "asked" := VStr "colour" ]} ]} |}.

(** A page with speech, as the demo skill compiles it. *)
Definition page_and_speech : list Action :=
  [show_page_action Demo.skill "/opt/skill/ui/g1" "g1" None;
   speak_dialog_action "say d1" "d1" true;
   speak_action "Hello" true;
   clear_display_action].

End Sample.

(** * Properties *)

(** ** Counting actions by kind *)

Lemma count_type_app t (xs ys : list Action) :
  count_type t (xs ++ ys) = count_type t xs + count_type t ys.
Proof. unfold count_type. by rewrite List.filter_app, length_app. Qed.

Lemma count_type_cons t (a : Action) (xs : list Action) :
  count_type t (a :: xs) = (if has_type t a then 1 else 0) + count_type t xs.
Proof. unfold count_type. simpl. by destruct (has_type t a). Qed.

Lemma contains_type_count t (xs : list Action) :
  contains_type t xs = negb (count_type t xs =? 0).
Proof.
  induction xs as [|a xs IH]; [done|].
  rewrite count_type_cons. unfold contains_type in *. simpl. rewrite IH.
  by destruct (has_type t a).
Qed.

Lemma has_type_lookup t s (a : Action) :
  a !! "type" = Some (VStr s) -> has_type t a = String.eqb s t.
Proof. unfold has_type. by intros ->. Qed.

Lemma count_type_kinds t (kinds : list string) (xs : list Action) :
  Forall (fun a : Action => exists s, s ∈ kinds /\ a !! "type" = Some (VStr s)) xs ->
  t ∉ kinds -> count_type t xs = 0.
Proof.
  intros Hall Ht. induction Hall as [|a xs (s & Hs & Ha) _ IH]; [done|].
  rewrite count_type_cons, IH, (has_type_lookup _ _ _ Ha).
  destruct (String.eqb_spec s t); [by subst|done].
Qed.

Lemma interleave_step_spec host self speak_wait actions maybe_dialog maybe_gui :
  interleave_step host self speak_wait actions (maybe_dialog, maybe_gui) =
  (shown <- show_of host self maybe_gui ;;
   spoken <- speak_of self speak_wait maybe_dialog ;;
   Ok (actions ++ shown ++ spoken)).
Proof.
  unfold interleave_step, show_of, speak_of.
  destruct maybe_gui as [[page|page gui_data]|];
    cbn [gui_item fst snd Py.bind];
    try (destruct (find_resource host self page (Some "ui")) as [[path|]|e];
         cbn [Py.bind]; [|reflexivity..]);
    destruct maybe_dialog as [[dn|dn dd]|];
    cbn [dialog_item fst snd Py.bind];
    try (destruct (render self dn _) as [u|e]; cbn [Py.bind]; [|reflexivity]);
    rewrite <- ?app_assoc, ?app_nil_r; reflexivity.
Qed.

Lemma interleave_acc host self speak_wait pairs actions :
  interleave host self speak_wait pairs actions =
  (body <- interleave host self speak_wait pairs [] ;; Ok (actions ++ body)).
Proof.
  revert actions.
  induction pairs as [|[maybe_dialog maybe_gui] pairs IH]; intros actions.
  - cbn [interleave Py.bind]. by rewrite app_nil_r.
  - cbn [interleave]. rewrite !interleave_step_spec.
    destruct (show_of host self maybe_gui) as [shown|e]; [|done].
    destruct (speak_of self speak_wait maybe_dialog) as [spoken|e]; [|done].
    cbn [Py.bind]. rewrite IH, (IH ([] ++ shown ++ spoken)).
    destruct (interleave host self speak_wait pairs []) as [body|e]; [|done].
    cbn [Py.bind]. by rewrite <- !app_assoc.
Qed.

(** The loop as one equation: the actions of the first position, then the
    rest. *)
Lemma interleave_cons host self speak_wait maybe_dialog maybe_gui pairs :
  interleave host self speak_wait ((maybe_dialog, maybe_gui) :: pairs) [] =
  (shown <- show_of host self maybe_gui ;;
   spoken <- speak_of self speak_wait maybe_dialog ;;
   rest <- interleave host self speak_wait pairs [] ;;
   Ok (shown ++ spoken ++ rest)).
Proof.
  cbn [interleave]. rewrite interleave_step_spec.
  destruct (show_of host self maybe_gui) as [shown|e]; [|done].
  destruct (speak_of self speak_wait maybe_dialog) as [spoken|e]; [|done].
  cbn [Py.bind]. rewrite interleave_acc.
  destruct (interleave host self speak_wait pairs []) as [body|e]; [|done].
  cbn [Py.bind]. by rewrite <- !app_assoc.
Qed.

Lemma show_of_kinds host self maybe_gui shown :
  show_of host self maybe_gui = Ok shown -> Forall page_or_speech shown.
Proof.
  destruct maybe_gui as [g|]; cbn [show_of]; [|by intros [= <-]].
  destruct (find_resource _ _ _ _) as [[path|]|e]; cbn [Py.bind]; [|done..].
  intros [= <-]. repeat constructor.
  exists "show_page". split; [set_solver|reflexivity].
Qed.

Lemma speak_of_kinds self speak_wait maybe_dialog spoken :
  speak_of self speak_wait maybe_dialog = Ok spoken ->
  Forall page_or_speech spoken.
Proof.
  destruct maybe_dialog as [d|]; cbn [speak_of]; [|by intros [= <-]].
  destruct (render _ _ _) as [u|e]; cbn [Py.bind]; [|done].
  intros [= <-]. repeat constructor.
  exists "speak". split; [set_solver|reflexivity].
Qed.

Lemma interleave_kinds host self speak_wait pairs body :
  interleave host self speak_wait pairs [] = Ok body ->
  Forall page_or_speech body.
Proof.
  revert body.
  induction pairs as [|[maybe_dialog maybe_gui] pairs IH]; intros body.
  - intros [= <-]. constructor.
  - rewrite interleave_cons.
    destruct (show_of host self maybe_gui) as [shown|e] eqn:Hshow; [|done].
    destruct (speak_of self speak_wait maybe_dialog) as [spoken|e] eqn:Hspeak;
      [|done].
    destruct (interleave host self speak_wait pairs []) as [rest|e]; [|done].
    cbn [Py.bind]. intros [= <-]. rewrite !Forall_app.
    split_and!; eauto using show_of_kinds, speak_of_kinds.
Qed.

Lemma _build_actions_steps host self dialog speak speak_wait gui gui_clear
    audio_alert music_uri message message_send message_delay expect_response :
  _build_actions host self dialog speak speak_wait gui gui_clear audio_alert
    music_uri message message_send message_delay expect_response =
  (actions <-
     interleave host self speak_wait
       (zip_longest (dialogs_of dialog) (guis_of gui))
       (step_uri audio_alert audio_alert_action
          (step_clear_start (effective_clear expect_response gui_clear)
             (step_message_start self message message_send []))) ;;
   Ok (step_trailing
         (resolve_clear (effective_clear expect_response gui_clear)
            (guis_of gui) (dialogs_of dialog) speak)
         (step_get_response expect_response
            (step_uri music_uri stream_music_action
               (step_message_end self message message_send message_delay
                  (step_speak speak speak_wait actions)))))).
Proof. reflexivity. Qed.

Lemma step_message_start_app self message message_send actions :
  step_message_start self message message_send actions =
  actions ++ seg_message_start self message message_send.
Proof.
  unfold step_message_start, seg_message_start.
  destruct message; [case_bool_decide|]; by rewrite ?app_nil_r.
Qed.

Lemma step_message_end_app self message message_send message_delay actions :
  step_message_end self message message_send message_delay actions =
  actions ++ seg_message_end self message message_send message_delay.
Proof.
  unfold step_message_end, seg_message_end.
  destruct message; [case_bool_decide|]; by rewrite ?app_nil_r.
Qed.

Lemma step_clear_start_app gui_clear actions :
  step_clear_start gui_clear actions = actions ++ seg_clear_start gui_clear.
Proof.
  unfold step_clear_start, seg_clear_start.
  case_bool_decide; by rewrite ?app_nil_r.
Qed.

Lemma step_uri_app uri action actions :
  step_uri uri action actions = actions ++ seg_uri uri action.
Proof.
  unfold step_uri, seg_uri.
  destruct uri as [uri|]; [destruct (str_truthy uri)|]; by rewrite ?app_nil_r.
Qed.

Lemma step_speak_app speak speak_wait actions :
  step_speak speak speak_wait actions = actions ++ seg_speak speak speak_wait.
Proof. destruct speak; simpl; by rewrite ?app_nil_r. Qed.

Lemma step_get_response_app expect_response actions :
  step_get_response expect_response actions =
  actions ++ seg_get_response expect_response.
Proof. destruct expect_response; simpl; by rewrite ?app_nil_r. Qed.

Lemma step_trailing_app gui_clear actions :
  step_trailing gui_clear actions = actions ++ seg_trailing gui_clear.
Proof.
  unfold step_trailing, seg_trailing.
  repeat case_bool_decide; by rewrite ?app_nil_r.
Qed.

(** The compiler, as the interleaved block inside its [layout]. *)
Lemma _build_actions_layout host self dialog speak speak_wait gui gui_clear
    audio_alert music_uri message message_send message_delay expect_response :
  _build_actions host self dialog speak speak_wait gui gui_clear audio_alert
    music_uri message message_send message_delay expect_response =
  (body <- interleave host self speak_wait
             (zip_longest (dialogs_of dialog) (guis_of gui)) [] ;;
   Ok (layout self dialog speak speak_wait gui gui_clear audio_alert
         music_uri message message_send message_delay expect_response body)).
Proof.
  rewrite _build_actions_steps, interleave_acc.
  destruct (interleave host self speak_wait _ []) as [body|e]; [|done].
  cbn [Py.bind]. f_equal.
  rewrite step_trailing_app, step_get_response_app, !step_uri_app,
    step_message_end_app, step_speak_app, step_clear_start_app,
    step_message_start_app.
  unfold layout, after_message_end. cbv zeta.
  by rewrite app_nil_l, <- !app_assoc.
Qed.

Lemma count_type_one t s (a : Action) :
  a !! "type" = Some (VStr s) -> count_type t [a] = tally true s t.
Proof.
  intros Ha. rewrite count_type_cons, (has_type_lookup _ _ _ Ha).
  unfold tally, count_type. simpl. by destruct (String.eqb s t).
Qed.

Lemma tally_absent kind t : tally false kind t = 0.
Proof. unfold tally. by destruct (String.eqb kind t). Qed.

Lemma count_seg_message_start t self message message_send :
  count_type t (seg_message_start self message message_send) =
  tally (is_some message && bool_decide (message_send = MessageSend.AT_START))
        "message" t.
Proof.
  unfold seg_message_start.
  destruct message; [case_bool_decide|]; cbn [is_some andb];
    rewrite ?tally_absent; by rewrite ?(count_type_one _ "message") by reflexivity.
Qed.

Lemma count_seg_message_end t self message message_send message_delay :
  count_type t (seg_message_end self message message_send message_delay) =
  tally (is_some message && bool_decide (message_send = MessageSend.AT_END))
        "message" t.
Proof.
  unfold seg_message_end.
  destruct message; [case_bool_decide|]; cbn [is_some andb];
    rewrite ?tally_absent; by rewrite ?(count_type_one _ "message") by reflexivity.
Qed.

Lemma count_seg_clear_start t gui_clear :
  count_type t (seg_clear_start gui_clear) =
  tally (bool_decide (gui_clear = AT_START)) "clear_display" t.
Proof.
  unfold seg_clear_start.
  case_bool_decide;
    rewrite ?tally_absent; by rewrite ?(count_type_one _ "clear_display") by reflexivity.
Qed.

Lemma count_seg_alert t audio_alert :
  count_type t (seg_uri audio_alert audio_alert_action) =
  tally (opt_str_truthy audio_alert) "audio_alert" t.
Proof.
  unfold seg_uri.
  destruct audio_alert as [uri|]; cbn [opt_str_truthy];
    [destruct (str_truthy uri)|];
    rewrite ?tally_absent; by rewrite ?(count_type_one _ "audio_alert") by reflexivity.
Qed.

Lemma count_seg_music t music_uri :
  count_type t (seg_uri music_uri stream_music_action) =
  tally (opt_str_truthy music_uri) "stream_music" t.
Proof.
  unfold seg_uri.
  destruct music_uri as [uri|]; cbn [opt_str_truthy];
    [destruct (str_truthy uri)|];
    rewrite ?tally_absent; by rewrite ?(count_type_one _ "stream_music") by reflexivity.
Qed.

Lemma count_seg_speak t speak speak_wait :
  count_type t (seg_speak speak speak_wait) = tally (is_some speak) "speak" t.
Proof.
  unfold seg_speak.
  destruct speak; cbn [is_some];
    rewrite ?tally_absent; by rewrite ?(count_type_one _ "speak") by reflexivity.
Qed.

Lemma count_seg_get_response t expect_response :
  count_type t (seg_get_response expect_response) =
  tally expect_response "get_response" t.
Proof.
  unfold seg_get_response.
  destruct expect_response;
    rewrite ?tally_absent; by rewrite ?(count_type_one _ "get_response") by reflexivity.
Qed.

Lemma count_seg_trailing t gui_clear :
  count_type t (seg_trailing gui_clear) =
  tally (bool_decide (gui_clear = AT_END)) "clear_display" t
  + tally (bool_decide (gui_clear = ON_IDLE)) "wait_for_idle" t.
Proof.
  unfold seg_trailing.
  destruct gui_clear; repeat case_bool_decide; try done;
    rewrite ?tally_absent;
    rewrite ?(count_type_one _ "clear_display") by reflexivity;
    rewrite ?(count_type_one _ "wait_for_idle") by reflexivity; done || lia.
Qed.

Lemma count_layout t self dialog speak speak_wait gui gui_clear audio_alert
    music_uri message message_send message_delay expect_response body :
  let effective := effective_clear expect_response gui_clear in
  let resolved :=
    resolve_clear effective (guis_of gui) (dialogs_of dialog) speak in
  count_type t
    (layout self dialog speak speak_wait gui gui_clear audio_alert music_uri
       message message_send message_delay expect_response body) =
  tally (is_some message && bool_decide (message_send = MessageSend.AT_START))
        "message" t
  + tally (bool_decide (effective = AT_START)) "clear_display" t
  + tally (opt_str_truthy audio_alert) "audio_alert" t
  + count_type t body
  + tally (is_some speak) "speak" t
  + tally (is_some message && bool_decide (message_send = MessageSend.AT_END))
          "message" t
  + tally (opt_str_truthy music_uri) "stream_music" t
  + tally expect_response "get_response" t
  + tally (bool_decide (resolved = AT_END)) "clear_display" t
  + tally (bool_decide (resolved = ON_IDLE)) "wait_for_idle" t.
Proof.
  intros effective resolved. unfold layout, after_message_end. cbv zeta.
  rewrite !count_type_app, count_seg_message_start, count_seg_clear_start,
    count_seg_alert, count_seg_speak, count_seg_message_end, count_seg_music,
    count_seg_get_response, count_seg_trailing.
  fold effective. fold resolved. lia.
Qed.

Lemma count_body t host self speak_wait pairs body :
  interleave host self speak_wait pairs [] = Ok body ->
  t ≠ "show_page" -> t ≠ "speak" -> count_type t body = 0.
Proof.
  intros Hbody Hshow Hspeak.
  eapply count_type_kinds; [by eapply interleave_kinds|].
  rewrite !elem_of_cons, elem_of_nil. tauto.
Qed.

(** Inverting a successful compilation. *)
Lemma _build_actions_Ok host self dialog speak speak_wait gui gui_clear
    audio_alert music_uri message message_send message_delay expect_response
    actions :
  _build_actions host self dialog speak speak_wait gui gui_clear audio_alert
    music_uri message message_send message_delay expect_response = Ok actions ->
  exists body,
    interleave host self speak_wait
      (zip_longest (dialogs_of dialog) (guis_of gui)) [] = Ok body
    /\ actions = layout self dialog speak speak_wait gui gui_clear audio_alert
                   music_uri message message_send message_delay
                   expect_response body.
Proof.
  rewrite _build_actions_layout.
  destruct (interleave host self speak_wait _ []) as [body|e]; [|done].
  intros [= <-]. by exists body.
Qed.

Lemma resolve_clear_auto dialog speak gui :
  resolve_clear AUTO (guis_of gui) (dialogs_of dialog) speak
  = auto_policy dialog speak gui.
Proof.
  unfold resolve_clear, auto_policy, pages_shown, speech_occurred.
  by destruct (guis_of gui), (dialogs_of dialog), speak.
Qed.

Lemma resolve_clear_auto_policy dialog speak gui :
  resolve_clear (auto_policy dialog speak gui) (guis_of gui)
    (dialogs_of dialog) speak
  = auto_policy dialog speak gui.
Proof.
  unfold resolve_clear, auto_policy.
  by destruct (pages_shown gui), (speech_occurred dialog speak).
Qed.

Lemma seg_clear_start_auto_policy dialog speak gui :
  seg_clear_start (auto_policy dialog speak gui) = seg_clear_start AUTO.
Proof.
  unfold auto_policy.
  by destruct (pages_shown gui), (speech_occurred dialog speak).
Qed.

(** The trailing part of a list: nothing, one [clear_display], or one
    [wait_for_idle]. *)
Lemma seg_trailing_cases gui_clear :
  seg_trailing gui_clear = []
  \/ seg_trailing gui_clear = [clear_display_action]
  \/ seg_trailing gui_clear = [wait_for_idle_action].
Proof.
  unfold seg_trailing. repeat case_bool_decide; auto.
Qed.

(** The payload of a message action: the message's own data, and the session
    id under ["mycroft_session_id"] only where the message has none. *)
Lemma message_action_data_lookup self message k :
  message_action_data self message !! k =
  match data message !! k with
  | Some v => Some v
  | None =>
      if decide (k = "mycroft_session_id")
      then Some (_mycroft_session_id self) else None
  end.
Proof.
  unfold message_action_data, spread. rewrite lookup_union.
  destruct (data message !! k) as [v|] eqn:Hk.
  - by rewrite union_Some_l.
  - rewrite (left_id None _). rewrite lookup_singleton.
    case_decide as H1; case_decide as H2; congruence.
Qed.

(** The message actions of a layout are those of its two message steps. *)
Lemma layout_message_actions host self dialog speak speak_wait gui gui_clear
    audio_alert music_uri message message_send message_delay expect_response
    pairs body (a : Action) :
  interleave host self speak_wait pairs [] = Ok body ->
  a ∈ layout self dialog speak speak_wait gui gui_clear audio_alert music_uri
        message message_send message_delay expect_response body ->
  has_type "message" a = true ->
  a ∈ seg_message_start self message message_send
      ++ seg_message_end self message message_send message_delay.
Proof.
  intros Hbody Ha Hmessage.
  assert (Hnot : forall xs : list Action,
             count_type "message" xs = 0 -> a ∉ xs).
  { intros xs Hcount Hin. apply list_elem_of_split in Hin as (l1 & l2 & ->).
    rewrite count_type_app, count_type_cons, Hmessage in Hcount. lia. }
  unfold layout, after_message_end in Ha. cbv zeta in Ha.
  rewrite !elem_of_app in Ha. rewrite elem_of_app.
  destruct Ha as [?|[Ha|[Ha|[Ha|[Ha|[?|[Ha|[Ha|Ha]]]]]]]]; auto;
    exfalso; revert Ha; apply Hnot.
  - rewrite count_seg_clear_start. unfold tally. by case_match.
  - rewrite count_seg_alert. unfold tally. by case_match.
  - by apply (count_body _ _ _ _ _ _ Hbody).
  - rewrite count_seg_speak. unfold tally. by case_match.
  - rewrite count_seg_music. unfold tally. by case_match.
  - rewrite count_seg_get_response. unfold tally. by case_match.
  - rewrite count_seg_trailing. unfold tally. by repeat case_match.
Qed.

(** ** Positional pairing *)
Lemma zip_longest_nil_l {A B} (ys : list B) :
  zip_longest (@nil A) ys = map (fun y => (None, Some y)) ys.
Proof. by destruct ys. Qed.

Lemma zip_longest_nil_r {A B} (xs : list A) :
  zip_longest xs (@nil B) = map (fun x => (Some x, None)) xs.
Proof. by destruct xs. Qed.

(** Position [i] of the zip holds item [i] of either sequence, absent where
    the sequence is too short, up to the longer length. *)
Lemma zip_longest_lookup {A B} (xs : list A) (ys : list B) (i : nat) :
  zip_longest xs ys !! i =
  if decide (i < max (length xs) (length ys))
  then Some (xs !! i, ys !! i) else None.
Proof.
  revert ys i. induction xs as [|x xs IH]; intros ys i.
  - rewrite zip_longest_nil_l, list_lookup_fmap. simpl.
    destruct (ys !! i) as [y|] eqn:Hy; simpl.
    + apply lookup_lt_Some in Hy. by rewrite decide_True.
    + apply lookup_ge_None in Hy. rewrite decide_False; [done|lia].
  - destruct ys as [|y ys].
    + rewrite zip_longest_nil_r, list_lookup_fmap. simpl.
      destruct ((x :: xs) !! i) as [x'|] eqn:Hx; simpl.
      * apply lookup_lt_Some in Hx. simpl in Hx.
        rewrite decide_True; [|lia]. by rewrite lookup_nil.
      * apply lookup_ge_None in Hx. simpl in Hx.
        rewrite decide_False; [done|lia].
    + destruct i as [|i]; simpl; [done|]. rewrite IH.
      repeat case_decide; (done || lia).
Qed.

Lemma length_zip_longest {A B} (xs : list A) (ys : list B) :
  length (zip_longest xs ys) = max (length xs) (length ys).
Proof.
  revert ys. induction xs as [|x xs IH]; intros ys.
  - by rewrite zip_longest_nil_l, length_map.
  - destruct ys as [|y ys]; simpl; [by rewrite length_map|]. by rewrite IH.
Qed.

Lemma collect_ext f g positions :
  (forall i, i ∈ positions -> f i = g i) ->
  collect f positions = collect g positions.
Proof.
  induction positions as [|i positions IH]; intros Hfg; [done|].
  simpl. rewrite Hfg by set_solver. rewrite IH; [done|].
  intros j Hj. apply Hfg. set_solver.
Qed.

Lemma collect_shift f k n :
  collect f (seq (S k) n) = collect (fun i => f (S i)) (seq k n).
Proof.
  revert k. induction n as [|n IH]; intros k; [done|].
  simpl. by rewrite IH.
Qed.

Lemma interleave_collect host self speak_wait pairs :
  interleave host self speak_wait pairs [] =
  collect (fun i =>
             match pairs !! i with
             | Some (maybe_dialog, maybe_gui) =>
                 shown <- show_of host self maybe_gui ;;
                 spoken <- speak_of self speak_wait maybe_dialog ;;
                 Ok (shown ++ spoken)
             | None => Ok []
             end)
          (seq 0 (length pairs)).
Proof.
  induction pairs as [|[maybe_dialog maybe_gui] pairs IH]; [done|].
  rewrite interleave_cons, IH. cbn [length seq collect].
  rewrite collect_shift.
  change (collect (fun i => match (_ :: pairs) !! S i with
                            | Some p => _ | None => _ end) ?l)
    with (collect (fun i => match pairs !! i with
                            | Some (maybe_dialog, maybe_gui) =>
                                shown <- show_of host self maybe_gui ;;
                                spoken <- speak_of self speak_wait maybe_dialog ;;
                                Ok (shown ++ spoken)
                            | None => Ok []
                            end) l).
  cbn [lookup list_lookup].
  destruct (show_of host self maybe_gui) as [shown|e]; [|done].
  destruct (speak_of self speak_wait maybe_dialog) as [spoken|e]; [|done].
  cbn [Py.bind].
  destruct (collect _ _) as [rest|e]; [|done].
  cbn [Py.bind]. by rewrite <- app_assoc.
Qed.

Lemma interleave_positional host self speak_wait dialogs guis :
  interleave host self speak_wait (zip_longest dialogs guis) [] =
  positional_block host self speak_wait dialogs guis.
Proof.
  rewrite interleave_collect, length_zip_longest. unfold positional_block.
  apply collect_ext. intros i Hi. apply elem_of_seq in Hi.
  rewrite zip_longest_lookup, decide_True by lia. done.
Qed.

Lemma show_of_counts host self maybe_gui shown :
  show_of host self maybe_gui = Ok shown ->
  count_type "show_page" shown = (if is_some maybe_gui then 1 else 0)
  /\ count_type "speak" shown = 0.
Proof.
  destruct maybe_gui as [g|]; cbn [show_of]; [|by intros [= <-]].
  destruct (find_resource _ _ _ _) as [[path|]|e]; cbn [Py.bind]; [|done..].
  intros [= <-]. split; reflexivity.
Qed.

Lemma speak_of_counts self speak_wait maybe_dialog spoken :
  speak_of self speak_wait maybe_dialog = Ok spoken ->
  count_type "show_page" spoken = 0
  /\ count_type "speak" spoken = (if is_some maybe_dialog then 1 else 0).
Proof.
  destruct maybe_dialog as [d|]; cbn [speak_of]; [|by intros [= <-]].
  destruct (render _ _ _) as [u|e]; cbn [Py.bind]; [|done].
  intros [= <-]. split; reflexivity.
Qed.

(** Nothing is truncated: the block shows every page and speaks every
    dialog. *)
Lemma interleave_counts host self speak_wait dialogs guis body :
  interleave host self speak_wait (zip_longest dialogs guis) [] = Ok body ->
  count_type "show_page" body = length guis
  /\ count_type "speak" body = length dialogs.
Proof.
  assert (Hstep : forall maybe_dialog maybe_gui pairs body n m,
    (forall rest, interleave host self speak_wait pairs [] = Ok rest ->
       count_type "show_page" rest = n /\ count_type "speak" rest = m) ->
    interleave host self speak_wait ((maybe_dialog, maybe_gui) :: pairs) []
      = Ok body ->
    count_type "show_page" body = (if is_some maybe_gui then 1 else 0) + n
    /\ count_type "speak" body = (if is_some maybe_dialog then 1 else 0) + m).
  { intros maybe_dialog maybe_gui pairs body' n m Hrest.
    rewrite interleave_cons.
    destruct (show_of host self maybe_gui) as [shown|e] eqn:Hshow; [|done].
    destruct (speak_of self speak_wait maybe_dialog) as [spoken|e]
      eqn:Hspeak; [|done].
    cbn [Py.bind].
    destruct (interleave host self speak_wait pairs []) as [rest|e]; [|done].
    cbn [Py.bind]. intros [= <-].
    apply show_of_counts in Hshow as [Hshow1 Hshow2].
    apply speak_of_counts in Hspeak as [Hspeak1 Hspeak2].
    destruct (Hrest rest eq_refl) as [Hrest1 Hrest2].
    rewrite !count_type_app. lia. }
  revert guis body. induction dialogs as [|d ds IH]; intros guis.
  - induction guis as [|g gs IHg]; intros body; [by intros [= <-]|].
    rewrite zip_longest_nil_l. cbn [map]. rewrite <- zip_longest_nil_l.
    intros Hbody. by apply (Hstep _ _ _ _ _ _ IHg) in Hbody.
  - destruct guis as [|g gs]; intros body.
    + rewrite zip_longest_nil_r. cbn [map]. rewrite <- zip_longest_nil_r.
      intros Hbody. by apply (Hstep _ _ _ _ _ _ (IH [])) in Hbody.
    + cbn [zip_longest]. intros Hbody.
      by apply (Hstep _ _ _ _ _ _ (IH gs)) in Hbody.
Qed.

Lemma collect_returns at_position positions :
  (forall i, i ∈ positions -> exists here, at_position i = Ok here) ->
  exists body, collect at_position positions = Ok body.
Proof.
  induction positions as [|i positions IH]; intros Hall; [by eexists|].
  destruct (Hall i) as [here Hhere]; [set_solver|].
  destruct IH as [rest Hrest]; [intros j Hj; apply Hall; set_solver|].
  cbn [collect]. rewrite Hhere, Hrest. by eexists.
Qed.

(** The compiler returns whenever every page resolves and every dialog
    renders. *)
Lemma _build_actions_returns host self dialog speak speak_wait gui gui_clear
    audio_alert music_uri message message_send message_delay expect_response :
  Forall (resolves host self) (guis_of gui) ->
  Forall (renders self) (dialogs_of dialog) ->
  exists actions,
    _build_actions host self dialog speak speak_wait gui gui_clear audio_alert
      music_uri message message_send message_delay expect_response
    = Ok actions.
Proof.
  intros Hguis Hdialogs.
  rewrite _build_actions_layout, interleave_positional.
  destruct (collect_returns
              (fun i =>
                 shown <- show_of host self (guis_of gui !! i) ;;
                 spoken <- speak_of self speak_wait (dialogs_of dialog !! i) ;;
                 Ok (shown ++ spoken))
              (seq 0 (max (length (dialogs_of dialog)) (length (guis_of gui)))))
    as [body Hbody].
  - intros i _.
    assert (exists shown, show_of host self (guis_of gui !! i) = Ok shown)
      as [shown ->].
    { destruct (guis_of gui !! i) as [g|] eqn:Hg; [|by eexists].
      apply list_elem_of_lookup_2 in Hg.
      rewrite Forall_forall in Hguis. destruct (Hguis g Hg) as [path Hpath].
      cbn [show_of]. rewrite Hpath. by eexists. }
    assert (exists spoken,
               speak_of self speak_wait (dialogs_of dialog !! i) = Ok spoken)
      as [spoken ->].
    { destruct (dialogs_of dialog !! i) as [d|] eqn:Hd; [|by eexists].
      apply list_elem_of_lookup_2 in Hd.
      rewrite Forall_forall in Hdialogs. destruct (Hdialogs d Hd) as [u Hu].
      cbn [speak_of]. rewrite Hu. by eexists. }
    by eexists.
  - unfold positional_block. rewrite Hbody. by eexists.
Qed.

(** ** Envelopes and dispatch *)
Lemma omap_VDict (actions : list Action) :
  omap (fun v => match v with VDict d => Some d | _ => None end)
       (VDict <$> actions) = actions.
Proof. induction actions as [|a actions IH]; [done|]. simpl. f_equal. exact IH. Qed.

(** [py_eq] against a string holds for that string only. *)
Lemma py_eq_str v s : py_eq v (VStr s) = true <-> v = VStr s.
Proof.
  destruct v; simpl; try (split; [discriminate|by intros [=]]).
  rewrite String.eqb_eq. split; [by intros ->|by intros [= ->]].
Qed.

(** The handler is entered with the request's session id as the active
    one. *)
Lemma intent_prologue_session_id host inbound self self1 :
  intent_prologue host inbound self = (Ok tt, self1) ->
  _mycroft_session_id self1 = get (data inbound) "mycroft_session_id".
Proof.
  unfold intent_prologue, bindM, modify, acknowledge, play_sound_uri.
  cbn [config_core set_session_id].
  repeat case_match; intros [= <-]; reflexivity.
Qed.

Lemma end_session_default_empty host self :
  end_session_default host self = Ok (empty_end_envelope self).
Proof. reflexivity. Qed.

Lemma build_actions_error_dialog host self skill u :
  render self "skill.error" (Some {[ "skill" := VStr skill ]}) = Ok u ->
  _build_actions host self
    (Some (one_dialog (dialog_tuple "skill.error"
                         (Some {[ "skill" := VStr skill ]}))))
    None true None AUTO None None None MessageSend.AT_START 0%float false
  = Ok [speak_dialog_action u "skill.error" true].
Proof.
  intros Hrender. rewrite _build_actions_layout.
  cbn [dialogs_of guis_of zip_longest map]. rewrite interleave_cons.
  cbn [show_of speak_of dialog_item fst snd interleave].
  rewrite Hrender. reflexivity.
Qed.

(** When the [skill.error] dialog does not render either, the wrapper raises
    and emits nothing after the handler. *)
Lemma handle_intent_error_dialog_raises host intent_name handler inbound self
    self1 self2 e e' :
  intent_prologue host inbound self = (Ok tt, self1) ->
  handler (unmunge_message host inbound (skill_id self1)) self1
  = (Raise e, self2) ->
  render self2 "skill.error"
    (Some {[ "skill" := VStr (camel_case_split host (name self2)) ]})
  = Raise e' ->
  _handle_intent host intent_name handler inbound self
  = (Raise e', draw_uuid self2).
Proof.
  intros Hprologue Hhandler Hrender.
  cbv beta iota delta [_handle_intent intent_prologue bindM try_except
                         reads modify ret] in Hprologue |- *.
  rewrite Hprologue, Hhandler.
  cbv beta iota delta [emit_start_session].
  rewrite _build_actions_layout.
  cbn [dialogs_of guis_of zip_longest map]. rewrite interleave_cons.
  cbn [show_of speak_of dialog_item fst snd interleave Py.bind].
  change (render (draw_uuid self2)) with (render self2).
  rewrite Hrender. reflexivity.
Qed.

(** The two other entry points at work on the demo skill: a matching
    response that the base [raw_utterance] leaves unanswered ends the
    session, and so does a stop request, with the display cleared. *)
Example handle_skill_response_match :
  map msg_type
    (bus (__handle_skill_response Demo.host raw_utterance
            {| msg_type := "mycroft.skill-response";
               data := {[ "skill_id" := VStr "demo";
                          "mycroft_session_id" := VStr "R";
                          "utterances" := VList [VStr "yes"] ]} |}
            Demo.skill).2)
  = ["mycroft.session.end"].
Proof. vm_compute. reflexivity. Qed.

Example handle_skill_stop_base :
  map (fun m => (msg_type m, get (data m) "mycroft_session_id",
                 envelope_actions m))
    (bus (__handle_skill_stop Demo.host (stop Demo.host)
            {| msg_type := "mycroft.skill.stop";
               data := {[ "skill_id" := VStr "demo";
                          "mycroft_session_id" := VStr "S" ]} |}
            Demo.skill).2)
  = [("mycroft.session.end", VStr "S", [clear_display_action])].
Proof. vm_compute. reflexivity. Qed.

(** What a position contributes, when it returns. *)
Lemma show_of_Ok_inv host self maybe_gui shown :
  show_of host self maybe_gui = Ok shown ->
  match maybe_gui with
  | Some g =>
      exists path,
        find_resource host self (gui_item g).1 (Some "ui") = Ok (Some path)
        /\ shown = [show_page_action self path (gui_item g).1 (gui_item g).2]
  | None => shown = []
  end.
Proof.
  destruct maybe_gui as [g|]; cbn [show_of]; [|by intros [= <-]].
  destruct (find_resource _ _ _ _) as [[path|]|e]; cbn [Py.bind]; [|done..].
  intros [= <-]. by exists path.
Qed.

Lemma speak_of_Ok_inv self speak_wait maybe_dialog spoken :
  speak_of self speak_wait maybe_dialog = Ok spoken ->
  match maybe_dialog with
  | Some d =>
      exists utterance,
        render self (dialog_item d).1 (dialog_item d).2 = Ok utterance
        /\ spoken = [speak_dialog_action utterance (dialog_item d).1 speak_wait]
  | None => spoken = []
  end.
Proof.
  destruct maybe_dialog as [d|]; cbn [speak_of]; [|by intros [= <-]].
  destruct (render _ _ _) as [u|e]; cbn [Py.bind]; [|done].
  intros [= <-]. by exists u.
Qed.

(** The result of [collect], position by position. *)
Lemma collect_slots at_position positions body :
  collect at_position positions = Ok body ->
  exists slots : list (list Action),
    body = concat slots
    /\ length slots = length positions
    /\ forall k slot, slots !! k = Some slot ->
         exists i, positions !! k = Some i /\ at_position i = Ok slot.
Proof.
  revert body. induction positions as [|i positions IH]; intros body.
  - intros [= <-]. exists []. split_and!; [done..|].
    intros k slot Hk. by rewrite lookup_nil in Hk.
  - cbn [collect].
    destruct (at_position i) as [here|e] eqn:Hhere; [|done].
    destruct (collect at_position positions) as [rest|e]; [|done].
    cbn [Py.bind]. intros [= <-].
    destruct (IH rest eq_refl) as (slots & -> & Hlen & Hslots).
    exists (here :: slots). split_and!; [done|by cbn; rewrite Hlen|].
    intros [|k] slot Hk.
    + injection Hk as <-. by exists i.
    + by apply Hslots.
Qed.

(** The interleaved block of a compile, slot by slot. *)
Lemma positional_block_slots host self speak_wait dialogs guis body :
  positional_block host self speak_wait dialogs guis = Ok body ->
  exists slots : list (list Action),
    body = concat slots
    /\ length slots = max (length dialogs) (length guis)
    /\ forall i slot, slots !! i = Some slot ->
         exists page speech,
           slot = page ++ speech
           /\ show_of host self (guis !! i) = Ok page
           /\ speak_of self speak_wait (dialogs !! i) = Ok speech.
Proof.
  unfold positional_block. intros Hbody.
  apply collect_slots in Hbody as (slots & -> & Hlen & Hslots).
  rewrite length_seq in Hlen.
  exists slots. split_and!; [done..|].
  intros i slot Hi.
  destruct (Hslots i slot Hi) as (j & Hj & Hat).
  apply lookup_seq in Hj as [-> _]. cbn [Nat.add] in Hat.
  destruct (show_of host self (guis !! i)) as [page|e]; [|done].
  destruct (speak_of self speak_wait (dialogs !! i)) as [speech|e]; [|done].
  cbn [Py.bind] in Hat. injection Hat as <-. by exists page, speech.
Qed.

(** * The claims of the specification *)

(** C1, as the code has it.  When the handler of an intent request raises
    and the [skill.error] dialog renders, the wrapper returns normally
    having emitted two envelopes after whatever the handler emitted: first
    a [mycroft.session.start] that speaks the error in a session of its
    own, then one [mycroft.session.end] with no actions, which is the last
    message on the bus. *)
Theorem handle_intent_handler_raises host intent_name handler inbound self
    self1 self2 e u :
  intent_prologue host inbound self = (Ok tt, self1) ->
  handler (unmunge_message host inbound (skill_id self1)) self1
  = (Raise e, self2) ->
  render self2 "skill.error"
    (Some {[ "skill" := VStr (camel_case_split host (name self2)) ]}) = Ok u ->
  exists final,
    _handle_intent host intent_name handler inbound self = (Ok tt, final)
    /\ bus final = bus self2 ++ [error_start_envelope host self2 u;
                                 empty_end_envelope self2]
    /\ msg_type (error_start_envelope host self2 u) = "mycroft.session.start"
    /\ envelope_actions (error_start_envelope host self2 u)
       = [speak_dialog_action u "skill.error" true]
    /\ msg_type (empty_end_envelope self2) = "mycroft.session.end"
    /\ envelope_actions (empty_end_envelope self2) = []
    /\ last (bus final) = Some (empty_end_envelope self2).
Proof.
  intros Hprologue Hhandler Hrender.
  exists (emit (empty_end_envelope self2)
            (emit (error_start_envelope host self2 u) (draw_uuid self2))).
  split_and!; try reflexivity.
  - cbv beta iota delta [_handle_intent intent_prologue bindM try_except
                           reads modify ret] in Hprologue |- *.
    rewrite Hprologue, Hhandler.
    cbv beta iota delta [emit_start_session].
    change (render (draw_uuid self2)) with (render self2) in *.
    erewrite build_actions_error_dialog; [|exact Hrender].
    reflexivity.
  - cbn [emit bus draw_uuid]. by rewrite <- app_assoc.
  - cbn [emit bus]. apply last_snoc.
Qed.

(** The demo skill, with a handler that raises on a request of session ["R"]. *)
Lemma handle_intent_handler_raises_witness :
  intent_prologue Demo.host Demo.request Demo.skill = (Ok tt, Demo.skill)
  /\ exists final,
       _handle_intent Demo.host "demo:intent" Demo.failing_handler
         Demo.request Demo.skill = (Ok tt, final)
       /\ bus final = [error_start_envelope Demo.host Demo.skill
                         "say skill.error";
                       empty_end_envelope Demo.skill].
Proof.
  assert (H : intent_prologue Demo.host Demo.request Demo.skill
              = (Ok tt, Demo.skill)) by (vm_compute; reflexivity).
  split; [exact H|].
  destruct (handle_intent_handler_raises Demo.host "demo:intent"
              Demo.failing_handler Demo.request Demo.skill Demo.skill
              Demo.skill (RuntimeError "boom") "say skill.error"
              H eq_refl eq_refl) as (final & Hrun & Hbus & _).
  exists final. split; [exact Hrun|exact Hbus].
Defined.

(** C1, refuted as stated: a handler that raises leaves two envelopes on the
    bus, a [mycroft.session.start] and a [mycroft.session.end], not one. *)
Lemma failing_handler_emits_two_envelopes :
  map msg_type
    (bus (_handle_intent Demo.host "demo:intent" Demo.failing_handler
            Demo.request Demo.skill).2)
  = ["mycroft.session.start"; "mycroft.session.end"]
  /\ length
       (List.filter is_envelope
          (bus (_handle_intent Demo.host "demo:intent" Demo.failing_handler
                  Demo.request Demo.skill).2)) = 2.
Proof. split; vm_compute; reflexivity. Qed.

(** C2, as the code has it.  With [expect_response=True] a compiled list
    always holds a [get_response] action; it holds a [wait_for_idle] action
    exactly when [gui_clear] was given as [ON_IDLE] (only [AUTO] is degraded
    to [NEVER]). *)
Theorem build_actions_expect_response host self dialog speak speak_wait gui
    gui_clear audio_alert music_uri message message_send message_delay
    actions :
  _build_actions host self dialog speak speak_wait gui gui_clear audio_alert
    music_uri message message_send message_delay true = Ok actions ->
  contains_type "get_response" actions = true
  /\ contains_type "wait_for_idle" actions = bool_decide (gui_clear = ON_IDLE).
Proof.
  intros Hactions.
  apply _build_actions_Ok in Hactions as (body & Hbody & ->).
  rewrite !contains_type_count, !count_layout.
  rewrite !(count_body _ _ _ _ _ _ Hbody) by done.
  unfold tally, effective_clear, resolve_clear.
  destruct gui_clear, (guis_of gui), (dialogs_of dialog), speak;
    split; vm_compute; reflexivity.
Qed.

(** A question that expects a response, under the default policy. *)
Lemma build_actions_expect_response_witness :
  _build_actions Demo.host Demo.skill None (Some "Which one?") true None AUTO
    None None None MessageSend.AT_START 0%float true
  = Ok [speak_action "Which one?" true; get_response_action]
  /\ contains_type "get_response"
       [speak_action "Which one?" true; get_response_action] = true
  /\ contains_type "wait_for_idle"
       [speak_action "Which one?" true; get_response_action]
     = bool_decide (AUTO = ON_IDLE).
Proof.
  assert (H : _build_actions Demo.host Demo.skill None (Some "Which one?")
                true None AUTO None None None MessageSend.AT_START 0%float
                true
              = Ok [speak_action "Which one?" true; get_response_action])
    by (vm_compute; reflexivity).
  split; [exact H|].
  exact (build_actions_expect_response _ _ _ _ _ _ _ _ _ _ _ _ _ H).
Defined.

(** C2, refuted as stated: an explicit [ON_IDLE] policy with
    [expect_response=True] compiles to [get_response] followed by
    [wait_for_idle]. *)
Lemma explicit_on_idle_keeps_wait_for_idle :
  _build_actions Demo.host Demo.skill None None true None ON_IDLE None None
    None MessageSend.AT_START 0%float true
  = Ok [get_response_action; wait_for_idle_action]
  /\ contains_type "wait_for_idle"
       [get_response_action; wait_for_idle_action] = true.
Proof. split; vm_compute; reflexivity. Qed.

(** C3.  Whatever the arguments, a compiled action list holds at most one
    [clear_display] action, and never both a [clear_display] and a
    [wait_for_idle] action. *)
Theorem build_actions_clear_once host self dialog speak speak_wait gui
    gui_clear audio_alert music_uri message message_send message_delay
    expect_response actions :
  _build_actions host self dialog speak speak_wait gui gui_clear audio_alert
    music_uri message message_send message_delay expect_response = Ok actions ->
  count_type "clear_display" actions <= 1
  /\ contains_type "clear_display" actions
     && contains_type "wait_for_idle" actions = false.
Proof.
  intros Hactions.
  apply _build_actions_Ok in Hactions as (body & Hbody & ->).
  rewrite !contains_type_count, !count_layout.
  rewrite !(count_body _ _ _ _ _ _ Hbody) by done.
  unfold tally, effective_clear, resolve_clear.
  destruct gui_clear, expect_response, (guis_of gui), (dialogs_of dialog),
    speak; split; vm_compute; (lia || reflexivity).
Qed.

(** A page and speech with the display cleared at the start. *)
Lemma build_actions_clear_once_witness :
  _build_actions Demo.host Demo.skill None (Some "Hello") true
    (Some (one_gui (gui_str "g1"))) AT_START None None None
    MessageSend.AT_START 0%float false
  = Ok [clear_display_action;
        show_page_action Demo.skill "/opt/skill/ui/g1" "g1" None;
        speak_action "Hello" true]
  /\ count_type "clear_display"
       [clear_display_action;
        show_page_action Demo.skill "/opt/skill/ui/g1" "g1" None;
        speak_action "Hello" true] <= 1
  /\ contains_type "clear_display"
       [clear_display_action;
        show_page_action Demo.skill "/opt/skill/ui/g1" "g1" None;
        speak_action "Hello" true]
     && contains_type "wait_for_idle"
          [clear_display_action;
           show_page_action Demo.skill "/opt/skill/ui/g1" "g1" None;
           speak_action "Hello" true] = false.
Proof.
  assert (H : _build_actions Demo.host Demo.skill None (Some "Hello") true
                (Some (one_gui (gui_str "g1"))) AT_START None None None
                MessageSend.AT_START 0%float false
              = Ok [clear_display_action;
                    show_page_action Demo.skill "/opt/skill/ui/g1" "g1" None;
                    speak_action "Hello" true])
    by (vm_compute; reflexivity).
  split; [exact H|].
  exact (build_actions_clear_once _ _ _ _ _ _ _ _ _ _ _ _ _ _ H).
Defined.

(** C4, as the code has it.  With [gui_clear=AUTO] and no response
    expected, the compiler behaves as under the policy the compiled content
    selects: [AT_END] when a page was shown and speech occurred, [ON_IDLE]
    when a page was shown without speech, [NEVER] without pages.  So the last
    action is [clear_display] in the first case and [wait_for_idle] in the
    second, the list holds neither in the third, and
    [_build_actions(speak="Hello", gui_clear=AUTO)] is exactly the one
    [speak] action with [wait] true. *)
Theorem build_actions_auto_policy host self dialog speak speak_wait gui
    audio_alert music_uri message message_send message_delay actions :
  _build_actions host self dialog speak speak_wait gui AUTO audio_alert
    music_uri message message_send message_delay false = Ok actions ->
  _build_actions host self dialog speak speak_wait gui
    (auto_policy dialog speak gui) audio_alert music_uri message message_send
    message_delay false = Ok actions
  /\ (pages_shown gui = true -> speech_occurred dialog speak = true ->
      last actions = Some clear_display_action)
  /\ (pages_shown gui = true -> speech_occurred dialog speak = false ->
      last actions = Some wait_for_idle_action)
  /\ (pages_shown gui = false ->
      contains_type "clear_display" actions = false
      /\ contains_type "wait_for_idle" actions = false)
  /\ _build_actions host self None (Some "Hello") true None AUTO None None
       None MessageSend.AT_START 0%float false
     = Ok [speak_action "Hello" true].
Proof.
  intros Hactions. split; [|split_and!].
  - rewrite <- Hactions, !_build_actions_layout.
    destruct (interleave host self speak_wait _ []) as [body|e]; [|done].
    cbn [Py.bind]. f_equal. unfold layout, effective_clear. cbn [andb].
    by rewrite resolve_clear_auto, resolve_clear_auto_policy,
         seg_clear_start_auto_policy.
  - intros Hpages Hspeech.
    apply _build_actions_Ok in Hactions as (body & _ & ->).
    unfold layout, after_message_end, effective_clear. cbn [andb].
    rewrite resolve_clear_auto. unfold auto_policy.
    rewrite Hpages, Hspeech, !app_assoc. apply last_snoc.
  - intros Hpages Hspeech.
    apply _build_actions_Ok in Hactions as (body & _ & ->).
    unfold layout, after_message_end, effective_clear. cbn [andb].
    rewrite resolve_clear_auto. unfold auto_policy.
    rewrite Hpages, Hspeech, !app_assoc. apply last_snoc.
  - intros Hpages.
    apply _build_actions_Ok in Hactions as (body & Hbody & ->).
    rewrite !contains_type_count, !count_layout.
    rewrite !(count_body _ _ _ _ _ _ Hbody) by done.
    unfold effective_clear. cbn [andb].
    rewrite resolve_clear_auto. unfold auto_policy. rewrite Hpages.
    by vm_compute.
  - reflexivity.
Qed.

(** A page and speech under [AUTO]: the list ends with [clear_display]. *)
Lemma build_actions_auto_policy_witness :
  _build_actions Demo.host Demo.skill None (Some "Hello") true
    (Some (one_gui (gui_str "g1"))) AUTO None None None MessageSend.AT_START
    0%float false
  = Ok [show_page_action Demo.skill "/opt/skill/ui/g1" "g1" None;
        speak_action "Hello" true; clear_display_action]
  /\ last [show_page_action Demo.skill "/opt/skill/ui/g1" "g1" None;
           speak_action "Hello" true; clear_display_action]
     = Some clear_display_action.
Proof.
  assert (H : _build_actions Demo.host Demo.skill None (Some "Hello") true
                (Some (one_gui (gui_str "g1"))) AUTO None None None
                MessageSend.AT_START 0%float false
              = Ok [show_page_action Demo.skill "/opt/skill/ui/g1" "g1" None;
                    speak_action "Hello" true; clear_display_action])
    by (vm_compute; reflexivity).
  split; [exact H|].
  exact (proj1 (proj2 (build_actions_auto_policy _ _ _ _ _ _ _ _ _ _ _ _ H))
           eq_refl eq_refl).
Defined.

(** C4, refuted as stated: with [gui_clear=AUTO], a page shown and speech,
    but a response expected, no [clear_display] is appended; the list ends
    with [get_response]. *)
Lemma auto_degraded_when_response_expected :
  _build_actions Demo.host Demo.skill None (Some "Hello") true
    (Some (one_gui (gui_str "g1"))) AUTO None None None MessageSend.AT_START
    0%float true
  = Ok [show_page_action Demo.skill "/opt/skill/ui/g1" "g1" None;
        speak_action "Hello" true; get_response_action]
  /\ contains_type "clear_display"
       [show_page_action Demo.skill "/opt/skill/ui/g1" "g1" None;
        speak_action "Hello" true; get_response_action] = false.
Proof. split; vm_compute; reflexivity. Qed.

(** C5.  The dialog and GUI sequences are paired by position with padding,
    for every compile that returns: between the actions that precede and
    follow the pairs, the list holds one slot for each position of the
    longer sequence.  The slot of a position is the [show_page] action of
    the GUI item there, when that sequence has one, followed by the [speak]
    action of the dialog item there, when that sequence has one; a position
    past the end of a sequence gets nothing from it, and no item is
    dropped.  No [show_page] action lies outside the slots, and the only
    [speak] action outside them is the one for a literal utterance, after
    them.  With [dialog=["d1","d2"]] and [gui=["g1"]] the list is
    [show_page] g1, [speak] d1, [speak] d2, in that order, followed under
    the default [AUTO] policy by the [clear_display] it resolves to. *)
Theorem build_actions_pairs_by_position host self speak_wait :
  (forall dialog speak gui gui_clear audio_alert music_uri message
          message_send message_delay expect_response actions,
      _build_actions host self dialog speak speak_wait gui gui_clear
        audio_alert music_uri message message_send message_delay
        expect_response = Ok actions ->
      exists (before : list Action) (slots : list (list Action))
             (after : list Action),
        actions = before ++ concat slots ++ after
        /\ length slots
           = max (length (dialogs_of dialog)) (length (guis_of gui))
        /\ (forall i slot, slots !! i = Some slot ->
              exists page speech,
                slot = page ++ speech
                /\ match guis_of gui !! i with
                   | Some g =>
                       exists path,
                         find_resource host self (gui_item g).1 (Some "ui")
                         = Ok (Some path)
                         /\ page = [show_page_action self path (gui_item g).1
                                      (gui_item g).2]
                   | None => page = []
                   end
                /\ match dialogs_of dialog !! i with
                   | Some d =>
                       exists utterance,
                         render self (dialog_item d).1 (dialog_item d).2
                         = Ok utterance
                         /\ speech = [speak_dialog_action utterance
                                        (dialog_item d).1 speak_wait]
                   | None => speech = []
                   end)
        /\ count_type "show_page" before = 0
        /\ count_type "speak" before = 0
        /\ count_type "show_page" after = 0
        /\ count_type "speak" after = (if is_some speak then 1 else 0))
  /\ (forall path u1 u2,
        find_resource host self "g1" (Some "ui") = Ok (Some path) ->
        render self "d1" (Some ∅) = Ok u1 ->
        render self "d2" (Some ∅) = Ok u2 ->
        _build_actions host self
          (Some (dialog_seq [dialog_str "d1"; dialog_str "d2"])) None
          speak_wait (Some (gui_seq [gui_str "g1"])) NEVER None None None
          MessageSend.AT_START 0%float false
        = Ok [show_page_action self path "g1" None;
              speak_dialog_action u1 "d1" speak_wait;
              speak_dialog_action u2 "d2" speak_wait]
        /\ _build_actions host self
             (Some (dialog_seq [dialog_str "d1"; dialog_str "d2"])) None
             speak_wait (Some (gui_seq [gui_str "g1"])) AUTO None None None
             MessageSend.AT_START 0%float false
           = Ok [show_page_action self path "g1" None;
                 speak_dialog_action u1 "d1" speak_wait;
                 speak_dialog_action u2 "d2" speak_wait;
                 clear_display_action]).
Proof.
  split.
  - intros dialog speak gui gui_clear audio_alert music_uri message
      message_send message_delay expect_response actions Hactions.
    apply _build_actions_Ok in Hactions as (body & Hbody & ->).
    rewrite interleave_positional in Hbody.
    apply positional_block_slots in Hbody as (slots & -> & Hlen & Hslots).
    exists (seg_message_start self message message_send
            ++ seg_clear_start (effective_clear expect_response gui_clear)
            ++ seg_uri audio_alert audio_alert_action),
      slots,
      (seg_speak speak speak_wait
       ++ seg_message_end self message message_send message_delay
       ++ after_message_end music_uri expect_response
            (resolve_clear (effective_clear expect_response gui_clear)
               (guis_of gui) (dialogs_of dialog) speak)).
    split_and!.
    + unfold layout. by rewrite <- !app_assoc.
    + exact Hlen.
    + intros i slot Hi.
      destruct (Hslots i slot Hi) as (page & speech & -> & Hpage & Hspeech).
      exists page, speech. split; [done|]. split.
      * by apply show_of_Ok_inv in Hpage.
      * by apply speak_of_Ok_inv in Hspeech.
    + rewrite !count_type_app, count_seg_message_start, count_seg_clear_start,
        count_seg_alert.
      unfold tally. reflexivity.
    + rewrite !count_type_app, count_seg_message_start, count_seg_clear_start,
        count_seg_alert.
      unfold tally. reflexivity.
    + unfold after_message_end.
      rewrite !count_type_app, count_seg_speak, count_seg_message_end,
        count_seg_music, count_seg_get_response, count_seg_trailing.
      unfold tally. reflexivity.
    + unfold after_message_end.
      rewrite !count_type_app, count_seg_speak, count_seg_message_end,
        count_seg_music, count_seg_get_response, count_seg_trailing.
      unfold tally. cbn [String.eqb Ascii.eqb Bool.eqb]. lia.
  - intros path u1 u2 Hg1 Hd1 Hd2. split.
    + rewrite _build_actions_layout. cbn [dialogs_of guis_of zip_longest map].
      rewrite !interleave_cons.
      cbn [show_of speak_of gui_item dialog_item fst snd interleave].
      rewrite Hg1, Hd1, Hd2. reflexivity.
    + rewrite _build_actions_layout. cbn [dialogs_of guis_of zip_longest map].
      rewrite !interleave_cons.
      cbn [show_of speak_of gui_item dialog_item fst snd interleave].
      rewrite Hg1, Hd1, Hd2. reflexivity.
Qed.

(** Two dialogs and one page on the demo skill, and one dialog with two
    pages: the second page has a slot of its own. *)
Lemma build_actions_pairs_by_position_witness :
  (find_resource Demo.host Demo.skill "g1" (Some "ui")
   = Ok (Some "/opt/skill/ui/g1")
   /\ render Demo.skill "d1" (Some ∅) = Ok "say d1"
   /\ render Demo.skill "d2" (Some ∅) = Ok "say d2")
  /\ _build_actions Demo.host Demo.skill
       (Some (dialog_seq [dialog_str "d1"; dialog_str "d2"])) None true
       (Some (gui_seq [gui_str "g1"])) NEVER None None None
       MessageSend.AT_START 0%float false
     = Ok [show_page_action Demo.skill "/opt/skill/ui/g1" "g1" None;
           speak_dialog_action "say d1" "d1" true;
           speak_dialog_action "say d2" "d2" true]
  /\ _build_actions Demo.host Demo.skill
       (Some (one_dialog (dialog_str "d1"))) None true
       (Some (gui_seq [gui_str "g1"; gui_str "g1"])) NEVER None None None
       MessageSend.AT_START 0%float false
     = Ok [show_page_action Demo.skill "/opt/skill/ui/g1" "g1" None;
           speak_dialog_action "say d1" "d1" true;
           show_page_action Demo.skill "/opt/skill/ui/g1" "g1" None]
  /\ exists (before : list Action) (slots : list (list Action))
            (after : list Action),
       [show_page_action Demo.skill "/opt/skill/ui/g1" "g1" None;
        speak_dialog_action "say d1" "d1" true;
        show_page_action Demo.skill "/opt/skill/ui/g1" "g1" None]
       = before ++ concat slots ++ after
       /\ length slots = 2
       /\ count_type "show_page" before = 0
       /\ count_type "show_page" after = 0.
Proof.
  assert (Hg1 : find_resource Demo.host Demo.skill "g1" (Some "ui")
                = Ok (Some "/opt/skill/ui/g1")) by (vm_compute; reflexivity).
  assert (Hd1 : render Demo.skill "d1" (Some ∅) = Ok "say d1")
    by reflexivity.
  assert (Hd2 : render Demo.skill "d2" (Some ∅) = Ok "say d2")
    by reflexivity.
  assert (H : _build_actions Demo.host Demo.skill
                (Some (one_dialog (dialog_str "d1"))) None true
                (Some (gui_seq [gui_str "g1"; gui_str "g1"])) NEVER None None
                None MessageSend.AT_START 0%float false
              = Ok [show_page_action Demo.skill "/opt/skill/ui/g1" "g1" None;
                    speak_dialog_action "say d1" "d1" true;
                    show_page_action Demo.skill "/opt/skill/ui/g1" "g1" None])
    by (vm_compute; reflexivity).
  split; [split; [exact Hg1|split; [exact Hd1|exact Hd2]]|].
  split; [exact (proj1 (proj2 (build_actions_pairs_by_position Demo.host
                                 Demo.skill true) _ _ _ Hg1 Hd1 Hd2))|].
  split; [exact H|].
  destruct (proj1 (build_actions_pairs_by_position Demo.host Demo.skill true)
              _ _ _ _ _ _ _ _ _ _ _ H)
    as (before & slots & after & Hlist & Hlength & _ & Hbefore & _ & Hafter
        & _).
  exists before, slots, after.
  split; [exact Hlist|]. split; [exact Hlength|].
  split; [exact Hbefore|exact Hafter].
Defined.

(** C6, as the code has it.  An attached message sent [at_start] is the
    first action of the list.  Sent [at_end], its action comes after every
    alert, page and speech action and is followed by the [stream_music]
    action (when a music URI is given), the [get_response] action (when a
    response is expected) and the trailing [clear_display] or
    [wait_for_idle]; with no music and no response expected it is the last
    action before the trailing one. *)
Theorem build_actions_message_position host self dialog speak speak_wait gui
    gui_clear audio_alert music_uri message message_send message_delay
    expect_response actions :
  _build_actions host self dialog speak speak_wait gui gui_clear audio_alert
    music_uri (Some message) message_send message_delay expect_response
  = Ok actions ->
  match message_send with
  | MessageSend.AT_START =>
      head actions = Some (message_start_action self message)
  | MessageSend.AT_END =>
      exists before trailing,
        actions =
          before ++ [message_end_action self message message_delay]
          ++ seg_uri music_uri stream_music_action
          ++ seg_get_response expect_response ++ trailing
        /\ count_type "message" before = 0
        /\ count_type "stream_music" before = 0
        /\ count_type "get_response" before = 0
        /\ (trailing = [] \/ trailing = [clear_display_action]
            \/ trailing = [wait_for_idle_action])
        /\ (opt_str_truthy music_uri = false -> expect_response = false ->
            actions =
              before ++ [message_end_action self message message_delay]
              ++ trailing)
  end.
Proof.
  intros Hactions.
  apply _build_actions_Ok in Hactions as (body & Hbody & ->).
  destruct message_send.
  - reflexivity.
  - exists (seg_clear_start (effective_clear expect_response gui_clear)
            ++ seg_uri audio_alert audio_alert_action ++ body
            ++ seg_speak speak speak_wait),
           (seg_trailing
              (resolve_clear (effective_clear expect_response gui_clear)
                 (guis_of gui) (dialogs_of dialog) speak)).
    split_and!.
    + unfold layout, after_message_end, seg_message_start, seg_message_end.
      cbv zeta. rewrite bool_decide_eq_false_2, bool_decide_eq_true_2 by done.
      by rewrite app_nil_l, <- !app_assoc.
    + rewrite !count_type_app, count_seg_clear_start, count_seg_alert,
        count_seg_speak, (count_body _ _ _ _ _ _ Hbody) by done.
      unfold tally. by repeat case_match.
    + rewrite !count_type_app, count_seg_clear_start, count_seg_alert,
        count_seg_speak, (count_body _ _ _ _ _ _ Hbody) by done.
      unfold tally. by repeat case_match.
    + rewrite !count_type_app, count_seg_clear_start, count_seg_alert,
        count_seg_speak, (count_body _ _ _ _ _ _ Hbody) by done.
      unfold tally. by repeat case_match.
    + apply seg_trailing_cases.
    + intros Hmusic ->.
      unfold layout, after_message_end, seg_message_start, seg_message_end.
      cbv zeta. rewrite bool_decide_eq_false_2, bool_decide_eq_true_2 by done.
      assert (seg_uri music_uri stream_music_action = []) as ->.
      { unfold seg_uri. destruct music_uri as [uri|]; [|done].
        simpl in Hmusic. by rewrite Hmusic. }
      by rewrite app_nil_l, <- !app_assoc.
Qed.

(** A message sent at the start, ahead of a page and speech. *)
Lemma build_actions_message_position_witness :
  _build_actions Demo.host Demo.skill None (Some "Hello") true
    (Some (one_gui (gui_str "g1"))) AUTO None None (Some Demo.notice)
    MessageSend.AT_START 0%float false
  = Ok [message_start_action Demo.skill Demo.notice;
        show_page_action Demo.skill "/opt/skill/ui/g1" "g1" None;
        speak_action "Hello" true; clear_display_action]
  /\ head [message_start_action Demo.skill Demo.notice;
           show_page_action Demo.skill "/opt/skill/ui/g1" "g1" None;
           speak_action "Hello" true; clear_display_action]
     = Some (message_start_action Demo.skill Demo.notice).
Proof.
  assert (H : _build_actions Demo.host Demo.skill None (Some "Hello") true
                (Some (one_gui (gui_str "g1"))) AUTO None None
                (Some Demo.notice) MessageSend.AT_START 0%float false
              = Ok [message_start_action Demo.skill Demo.notice;
                    show_page_action Demo.skill "/opt/skill/ui/g1" "g1" None;
                    speak_action "Hello" true; clear_display_action])
    by (vm_compute; reflexivity).
  split; [exact H|].
  exact (build_actions_message_position _ _ _ _ _ _ _ _ _ _
           MessageSend.AT_START _ _ _ H).
Defined.

(** C6, refuted as stated: a message sent [at_end] together with a music URI
    is followed by the [stream_music] action, which is no trailing
    [clear_display] or [wait_for_idle]. *)
Lemma message_at_end_precedes_music :
  _build_actions Demo.host Demo.skill None None true None AUTO None
    (Some "file:///song.mp3") (Some Demo.notice) MessageSend.AT_END 0%float
    false
  = Ok [message_end_action Demo.skill Demo.notice 0%float;
        stream_music_action "file:///song.mp3"]
  /\ last [message_end_action Demo.skill Demo.notice 0%float;
           stream_music_action "file:///song.mp3"]
     = Some (stream_music_action "file:///song.mp3")
  /\ has_type "message" (stream_music_action "file:///song.mp3") = false
  /\ has_type "clear_display" (stream_music_action "file:///song.mp3") = false
  /\ has_type "wait_for_idle" (stream_music_action "file:///song.mp3") = false.
Proof. split_and!; vm_compute; reflexivity. Qed.

(** C7.  A [continue_session] call with no explicit session id, made while
    the request's session is the active one, returns a
    [mycroft.session.continue] envelope carrying the session id of the
    request.  The intent wrapper enters the handler with that session
    active, and emits the envelope the handler returns. *)
Theorem continue_session_request_session_id host intent_name inbound work
    self self1 self2 dialog speak speak_wait gui gui_clear audio_alert
    music_uri expect_response message message_send message_delay state
    envelope :
  intent_prologue host inbound self = (Ok tt, self1) ->
  work (unmunge_message host inbound (skill_id self1)) self1 = (Ok tt, self2) ->
  _mycroft_session_id self2 = _mycroft_session_id self1 ->
  continue_session host self2 dialog speak speak_wait gui gui_clear
    audio_alert music_uri expect_response message message_send message_delay
    None state = Ok envelope ->
  msg_type envelope = "mycroft.session.continue"
  /\ data envelope !! "mycroft_session_id"
     = Some (get (data inbound) "mycroft_session_id")
  /\ _handle_intent host intent_name
       (continuing_handler host work dialog speak speak_wait gui gui_clear
          audio_alert music_uri expect_response message message_send
          message_delay state)
       inbound self
     = (Ok tt, emit envelope self2).
Proof.
  intros Hprologue Hwork Hsame Hcontinue. split_and!.
  - unfold continue_session in Hcontinue.
    destruct (_build_actions _ _ _ _ _ _ _ _ _ _ _ _ _); [|done].
    by injection Hcontinue as <-.
  - unfold continue_session in Hcontinue.
    destruct (_build_actions _ _ _ _ _ _ _ _ _ _ _ _ _); [|done].
    injection Hcontinue as <-. cbn [data].
    rewrite Hsame, (intent_prologue_session_id _ _ _ _ Hprologue).
    reflexivity.
  - cbv beta iota delta [_handle_intent intent_prologue continuing_handler
                           bindM try_except reads modify ret]
      in Hprologue |- *.
    by rewrite Hprologue, Hwork, Hcontinue.
Qed.

(** A handler that continues the session of request ["R"]. *)
Lemma continue_session_request_session_id_witness :
  continue_session Demo.host Demo.skill None (Some "Which one?") true None
    AUTO None None true None MessageSend.AT_START 0%float None None
  = Ok {| msg_type := "mycroft.session.continue";
          data := {[ "mycroft_session_id" := VStr "R";
                     "skill_id" := VStr "demo";
                     "actions" :=
                       VList [VDict (speak_action "Which one?" true);
                              VDict get_response_action];
                     "state" := VNone ]} |}
  /\ ({[ "mycroft_session_id" := VStr "R"; "skill_id" := VStr "demo";
         "actions" := VList [VDict (speak_action "Which one?" true);
                             VDict get_response_action];
         "state" := VNone ]} : Dict) !! "mycroft_session_id"
     = Some (get (data Demo.request) "mycroft_session_id").
Proof.
  assert (H : continue_session Demo.host Demo.skill None (Some "Which one?")
                true None AUTO None None true None MessageSend.AT_START
                0%float None None
              = Ok {| msg_type := "mycroft.session.continue";
                      data := {[ "mycroft_session_id" := VStr "R";
                                 "skill_id" := VStr "demo";
                                 "actions" :=
                                   VList [VDict (speak_action "Which one?" true);
                                          VDict get_response_action];
                                 "state" := VNone ]} |})
    by (vm_compute; reflexivity).
  split; [exact H|].
  exact (proj1 (proj2
    (continue_session_request_session_id Demo.host "demo:intent" Demo.request
       (fun _ => ret tt) Demo.skill Demo.skill Demo.skill None
       (Some "Which one?") true None AUTO None None true None
       MessageSend.AT_START 0%float None _
       ltac:(vm_compute; reflexivity) eq_refl eq_refl H))).
Defined.

(** C8.  A [mycroft.skill-response] message whose skill id is not this
    skill's, or whose session id is not (by [==]) the active one, is
    dropped: the handler returns normally and leaves the skill as it was --
    nothing is emitted on the bus, no attribute changes -- whatever the reply
    handler [raw_utterance] would do, so it is not called. *)
Theorem handle_skill_response_mismatch host raw_utterance message self :
  get (data message) "skill_id" ≠ VStr (skill_id self)
  \/ py_eq (get (data message) "mycroft_session_id")
           (_mycroft_session_id self) = false ->
  __handle_skill_response host raw_utterance message self = (Ok tt, self).
Proof.
  unfold __handle_skill_response. intros [Hskill | ->].
  - destruct (py_eq (get (data message) "skill_id") (VStr (skill_id self)))
      eqn:Heq; [|done].
    by apply py_eq_str in Heq.
  - by rewrite andb_false_r.
Qed.

(** A response for another session: the tracing reply handler leaves no
    trace. *)
Lemma handle_skill_response_mismatch_witness :
  py_eq (get {[ "skill_id" := VStr "demo";
                "mycroft_session_id" := VStr "other" ]} "mycroft_session_id")
        (VStr "R") = false
  /\ __handle_skill_response Demo.host tracing_reply
       {| msg_type := "mycroft.skill-response";
          data := {[ "skill_id" := VStr "demo";
                     "mycroft_session_id" := VStr "other" ]} |} Demo.skill
     = (Ok tt, Demo.skill).
Proof.
  assert (H : py_eq (get {[ "skill_id" := VStr "demo";
                            "mycroft_session_id" := VStr "other" ]}
                         "mycroft_session_id") (VStr "R") = false)
    by (vm_compute; reflexivity).
  split; [exact H|].
  exact (handle_skill_response_mismatch Demo.host tracing_reply
           {| msg_type := "mycroft.skill-response";
              data := {[ "skill_id" := VStr "demo";
                         "mycroft_session_id" := VStr "other" ]} |}
           Demo.skill (or_intror H)).
Defined.

(** C9.  Every message action of a compiled list, sent [at_start] or
    [at_end], carries as ["data"] the session id with the attached message's
    own data written over it: a ["mycroft_session_id"] of the message's own
    overrides the current session id, which is used only when the message
    has none; every other key is the message's. *)
Theorem build_actions_message_data host self dialog speak speak_wait gui
    gui_clear audio_alert music_uri message message_send message_delay
    expect_response actions :
  _build_actions host self dialog speak speak_wait gui gui_clear audio_alert
    music_uri (Some message) message_send message_delay expect_response
  = Ok actions ->
  count_type "message" actions = 1
  /\ forall a : Action,
       a ∈ actions -> has_type "message" a = true ->
       exists payload : Dict,
         a !! "data" = Some (VDict payload)
         /\ (forall v, data message !! "mycroft_session_id" = Some v ->
             payload !! "mycroft_session_id" = Some v)
         /\ (data message !! "mycroft_session_id" = None ->
             payload !! "mycroft_session_id" = Some (_mycroft_session_id self))
         /\ (forall k, k ≠ "mycroft_session_id" ->
             payload !! k = data message !! k).
Proof.
  intros Hactions.
  apply _build_actions_Ok in Hactions as (body & Hbody & ->). split.
  - rewrite count_layout, (count_body _ _ _ _ _ _ Hbody) by done.
    unfold tally. destruct message_send; by vm_compute.
  - intros a Ha Hmessage.
    eapply layout_message_actions in Ha; [|done..].
    exists (message_action_data self message). split_and!.
    + unfold seg_message_start, seg_message_end in Ha.
      destruct message_send;
        [rewrite bool_decide_eq_true_2, bool_decide_eq_false_2 in Ha by done
        |rewrite bool_decide_eq_false_2, bool_decide_eq_true_2 in Ha by done];
        apply list_elem_of_singleton in Ha as ->; reflexivity.
    + intros v Hv. by rewrite message_action_data_lookup, Hv.
    + intros Hnone. rewrite message_action_data_lookup, Hnone.
      by case_decide.
    + intros k Hk. rewrite message_action_data_lookup.
      destruct (data message !! k); [done|]. by case_decide.
Qed.

(** A message that carries a session id of its own keeps it. *)
Lemma build_actions_message_data_witness :
  _build_actions Demo.host Demo.skill None None true None AUTO None None
    (Some Demo.notice) MessageSend.AT_END 0%float false
  = Ok [message_end_action Demo.skill Demo.notice 0%float]
  /\ exists payload : Dict,
       message_end_action Demo.skill Demo.notice 0%float !! "data"
       = Some (VDict payload)
       /\ payload !! "mycroft_session_id" = Some (VStr "own").
Proof.
  assert (H : _build_actions Demo.host Demo.skill None None true None AUTO
                None None (Some Demo.notice) MessageSend.AT_END 0%float false
              = Ok [message_end_action Demo.skill Demo.notice 0%float])
    by (vm_compute; reflexivity).
  split; [exact H|].
  destruct (proj2 (build_actions_message_data _ _ _ _ _ _ _ _ _ _ _ _ _ _ H)
              (message_end_action Demo.skill Demo.notice 0%float)
              (list_elem_of_here _ _) eq_refl)
    as (payload & Hdata & Hown & _).
  exists payload. split; [exact Hdata|exact (Hown _ eq_refl)].
Defined.

(** C10.  [end_session] has no [expect_response] parameter: it compiles its
    arguments with [expect_response] false, and the action list of the
    [mycroft.session.end] envelope it returns holds no [get_response]
    action.  The same goes for [abort_session], which always returns. *)
Theorem end_session_no_get_response host self dialog speak speak_wait gui
    gui_clear audio_alert music_uri message message_send message_delay
    mycroft_session_id envelope :
  end_session host self dialog speak speak_wait gui gui_clear audio_alert
    music_uri message message_send message_delay mycroft_session_id
  = Ok envelope ->
  msg_type envelope = "mycroft.session.end"
  /\ _build_actions host self dialog speak speak_wait gui gui_clear
       audio_alert music_uri message message_send message_delay false
     = Ok (envelope_actions envelope)
  /\ contains_type "get_response" (envelope_actions envelope) = false
  /\ exists aborted,
       abort_session host self = Ok aborted
       /\ msg_type aborted = "mycroft.session.end"
       /\ data aborted !! "aborted" = Some (VBool true)
       /\ contains_type "get_response" (envelope_actions aborted) = false.
Proof.
  unfold end_session.
  destruct (_build_actions host self dialog speak speak_wait gui gui_clear
              audio_alert music_uri message message_send message_delay false)
    as [actions|e] eqn:Hactions; [|done].
  cbn [Py.bind]. intros [= <-].
  assert (Henvelope : forall sid : Value,
    envelope_actions
      {| msg_type := "mycroft.session.end";
         data := {[ "mycroft_session_id" := sid;
                    "skill_id" := VStr (skill_id self);
                    "actions" := VList (VDict <$> actions) ]} |} = actions).
  { intros sid. unfold envelope_actions. cbn [data].
    change (_ !! "actions") with (Some (VList (VDict <$> actions))).
    apply omap_VDict. }
  rewrite Henvelope. split_and!; [done|done| |].
  - apply _build_actions_Ok in Hactions as (body & Hbody & ->).
    rewrite contains_type_count, count_layout,
      (count_body _ _ _ _ _ _ Hbody) by done.
    unfold tally. cbn. by repeat case_match.
  - eexists. split; [reflexivity|]. split_and!; reflexivity.
Qed.

(** An [end_session] with speech, a message and music. *)
Lemma end_session_no_get_response_witness :
  end_session Demo.host Demo.skill None (Some "Bye") true None AUTO None
    (Some "file:///song.mp3") (Some Demo.notice) MessageSend.AT_END 0%float
    None
  = Ok {| msg_type := "mycroft.session.end";
          data := {[ "mycroft_session_id" := VStr "R";
                     "skill_id" := VStr "demo";
                     "actions" :=
                       VList [VDict (speak_action "Bye" true);
                              VDict (message_end_action Demo.skill
                                       Demo.notice 0%float);
                              VDict (stream_music_action
                                       "file:///song.mp3")] ]} |}
  /\ contains_type "get_response"
       [speak_action "Bye" true;
        message_end_action Demo.skill Demo.notice 0%float;
        stream_music_action "file:///song.mp3"] = false.
Proof.
  assert (H : end_session Demo.host Demo.skill None (Some "Bye") true None
                AUTO None (Some "file:///song.mp3") (Some Demo.notice)
                MessageSend.AT_END 0%float None
              = Ok {| msg_type := "mycroft.session.end";
                      data := {[ "mycroft_session_id" := VStr "R";
                                 "skill_id" := VStr "demo";
                                 "actions" :=
                                   VList [VDict (speak_action "Bye" true);
                                          VDict (message_end_action Demo.skill
                                                   Demo.notice 0%float);
                                          VDict (stream_music_action
                                                   "file:///song.mp3")] ]} |})
    by (vm_compute; reflexivity).
  split; [exact H|].
  exact (proj1 (proj2 (proj2 (end_session_no_get_response _ _ _ _ _ _ _ _ _ _
                                _ _ _ _ H)))).
Defined.

(** * Further properties of the code *)

(** ** Resources *)

Lemma _find_resource_Some host self res_name lang res_dirname path :
  _find_resource host self res_name lang res_dirname = Some path ->
  path_exists host path = true
  \/ exists directory files,
       (directory, files)
         ∈ walk host (join host [root_dir self; "locale"; lang])
       /\ res_name ∈ files
       /\ path = join host [directory; res_name].
Proof.
  unfold _find_resource.
  assert (Hwalk :
    match List.find (fun '(_, files) => bool_decide (res_name ∈ files))
                    (walk host (join host [root_dir self; "locale"; lang]))
    with
    | Some (directory, _) => Some (join host [directory; res_name])
    | None => None
    end = Some path ->
    exists directory files,
      (directory, files)
        ∈ walk host (join host [root_dir self; "locale"; lang])
      /\ res_name ∈ files /\ path = join host [directory; res_name]).
  { destruct (List.find _ _) as [[directory files]|] eqn:Hfind; [|done].
    intros [= <-]. apply List.find_some in Hfind as [Hin Hfiles].
    exists directory, files. split_and!; [|by apply bool_decide_eq_true in Hfiles|done].
    by apply list_elem_of_In. }
  destruct res_dirname as [res_dirname|]; [|by right; apply Hwalk].
  destruct (str_truthy res_dirname); [|by right; apply Hwalk].
  destruct (path_exists host (join host [_; _; _; _])) eqn:Hfirst;
    [intros [= <-]; by left|].
  destruct (path_exists host (join host [_; _; _])) eqn:Hsecond;
    [intros [= <-]; by left|].
  intros. right. by apply Hwalk.
Qed.

(** X1.  [find_resource] never makes a path up: a path it returns either
    exists on disk, or names a file that the walk of the ["locale"] folder
    of the configured language, or of ["en-us"], lists in the directory it
    is joined to. *)
Theorem find_resource_found host self res_name res_dirname path :
  find_resource host self res_name res_dirname = Ok (Some path) ->
  path_exists host path = true
  \/ exists language directory files,
       (lang self = VStr language \/ language = "en-us")
       /\ (directory, files)
            ∈ walk host (join host [root_dir self; "locale"; language])
       /\ res_name ∈ files
       /\ path = join host [directory; res_name].
Proof.
  unfold find_resource.
  destruct (lang self) as [| | | |language| |] eqn:Hlang; try done.
  destruct (negb _ && negb _); intros [= Hfound];
    apply _find_resource_Some in Hfound
      as [?|(directory & files & ? & ? & ?)]; auto; right.
  - exists "en-us", directory, files. auto.
  - exists language, directory, files. auto.
Qed.

(** A German vocabulary file that only the [locale] folder has. *)
Lemma find_resource_found_witness :
  find_resource Sample.disk Sample.wetter "nein.voc" (Some "vocab")
  = Ok (Some "/opt/wetter/locale/de-de/vocab/nein.voc")
  /\ (path_exists Sample.disk "/opt/wetter/locale/de-de/vocab/nein.voc" = true
      \/ exists language directory files,
           (lang Sample.wetter = VStr language \/ language = "en-us")
           /\ (directory, files)
                ∈ walk Sample.disk
                    (join Sample.disk
                       [root_dir Sample.wetter; "locale"; language])
           /\ "nein.voc" ∈ files
           /\ "/opt/wetter/locale/de-de/vocab/nein.voc"
              = join Sample.disk [directory; "nein.voc"]).
Proof.
  assert (H : find_resource Sample.disk Sample.wetter "nein.voc" (Some "vocab")
              = Ok (Some "/opt/wetter/locale/de-de/vocab/nein.voc"))
    by (vm_compute; reflexivity).
  split; [exact H|].
  exact (find_resource_found _ _ _ _ _ H).
Defined.

(** X2.  A file in the old translated directory
    [<root>/<res_dirname>/<lang>/<res_name>] of the configured language is
    the one [find_resource] returns, whatever else exists. *)
Theorem find_resource_prefers_language host self res_name res_dirname
    language :
  lang self = VStr language ->
  str_truthy res_dirname = true ->
  path_exists host (join host [root_dir self; res_dirname; language; res_name])
  = true ->
  str_truthy (join host [root_dir self; res_dirname; language; res_name])
  = true ->
  find_resource host self res_name (Some res_dirname)
  = Ok (Some (join host [root_dir self; res_dirname; language; res_name])).
Proof.
  intros Hlang Hdir Hexists Hpath.
  unfold find_resource, _find_resource. rewrite Hlang, Hdir, Hexists.
  cbn [opt_str_truthy]. by rewrite Hpath.
Qed.

(** A vocabulary file that exists both translated and untranslated. *)
Lemma find_resource_prefers_language_witness :
  (lang Sample.wetter = VStr "de-de"
   /\ path_exists Sample.disk "/opt/wetter/vocab/de-de/ja.voc" = true
   /\ path_exists Sample.disk "/opt/wetter/vocab/ja.voc" = true)
  /\ find_resource Sample.disk Sample.wetter "ja.voc" (Some "vocab")
     = Ok (Some "/opt/wetter/vocab/de-de/ja.voc").
Proof.
  assert (Hlang : lang Sample.wetter = VStr "de-de")
    by (vm_compute; reflexivity).
  assert (Hexists : path_exists Sample.disk
                      (join Sample.disk
                         [root_dir Sample.wetter; "vocab"; "de-de"; "ja.voc"])
                    = true) by (vm_compute; reflexivity).
  split; [split; [exact Hlang|split; [exact Hexists|reflexivity]]|].
  exact (find_resource_prefers_language Sample.disk Sample.wetter "ja.voc"
           "vocab" "de-de" Hlang eq_refl Hexists eq_refl).
Defined.

(** X3.  A resource that the configured language does not have -- neither in
    the old directories nor under its ["locale"] folder -- is looked up
    again under ["en-us"]: a file in [<root>/<res_dirname>/en-us/] is then
    returned. *)
Theorem find_resource_falls_back_to_english host self res_name res_dirname
    language :
  lang self = VStr language ->
  str_truthy res_dirname = true ->
  path_exists host (join host [root_dir self; res_dirname; language; res_name])
  = false ->
  path_exists host (join host [root_dir self; res_dirname; res_name]) = false ->
  Forall (fun entry => res_name ∉ entry.2)
    (walk host (join host [root_dir self; "locale"; language])) ->
  path_exists host (join host [root_dir self; res_dirname; "en-us"; res_name])
  = true ->
  find_resource host self res_name (Some res_dirname)
  = Ok (Some (join host [root_dir self; res_dirname; "en-us"; res_name])).
Proof.
  intros Hlang Hdir Hfirst Hsecond Hwalk Henglish.
  assert (Hnone : _find_resource host self res_name language
                    (Some res_dirname) = None).
  { unfold _find_resource. rewrite Hdir, Hfirst, Hsecond.
    destruct (List.find _ _) as [[directory files]|] eqn:Hfind; [|done].
    apply List.find_some in Hfind as [Hin Hfiles].
    apply list_elem_of_In in Hin. apply bool_decide_eq_true in Hfiles.
    by destruct (proj1 (Forall_forall _ _) Hwalk _ Hin). }
  assert (language ≠ "en-us") as Hne%String.eqb_neq
    by (intros ->; congruence).
  unfold find_resource. rewrite Hlang, Hnone, Hne. cbn [opt_str_truthy negb andb].
  unfold _find_resource. by rewrite Hdir, Henglish.
Qed.

(** A dialog that only exists in English. *)
Lemma find_resource_falls_back_to_english_witness :
  (lang Sample.wetter = VStr "de-de"
   /\ path_exists Sample.disk "/opt/wetter/dialog/de-de/hello.dialog" = false
   /\ path_exists Sample.disk "/opt/wetter/dialog/hello.dialog" = false
   /\ Forall (fun entry => "hello.dialog" ∉ entry.2)
        (walk Sample.disk "/opt/wetter/locale/de-de")
   /\ path_exists Sample.disk "/opt/wetter/dialog/en-us/hello.dialog" = true)
  /\ find_resource Sample.disk Sample.wetter "hello.dialog" (Some "dialog")
     = Ok (Some "/opt/wetter/dialog/en-us/hello.dialog").
Proof.
  assert (Hlang : lang Sample.wetter = VStr "de-de")
    by (vm_compute; reflexivity).
  assert (Hfirst : path_exists Sample.disk
                     (join Sample.disk
                        [root_dir Sample.wetter; "dialog"; "de-de";
                         "hello.dialog"]) = false)
    by (vm_compute; reflexivity).
  assert (Hsecond : path_exists Sample.disk
                      (join Sample.disk
                         [root_dir Sample.wetter; "dialog"; "hello.dialog"])
                    = false) by (vm_compute; reflexivity).
  assert (Hwalk : Forall (fun entry => "hello.dialog" ∉ entry.2)
                    (walk Sample.disk
                       (join Sample.disk
                          [root_dir Sample.wetter; "locale"; "de-de"])))
    by (apply (bool_decide_unpack _); vm_compute; exact I).
  assert (Henglish : path_exists Sample.disk
                       (join Sample.disk
                          [root_dir Sample.wetter; "dialog"; "en-us";
                           "hello.dialog"]) = true)
    by (vm_compute; reflexivity).
  split; [split_and!; [exact Hlang|exact Hfirst|exact Hsecond|exact Hwalk
                       |exact Henglish]|].
  exact (find_resource_falls_back_to_english Sample.disk Sample.wetter
           "hello.dialog" "dialog" "de-de" Hlang eq_refl Hfirst Hsecond Hwalk
           Henglish).
Defined.

(** ** Location, skill id and traceback *)

(** X4.  [location_pretty] and [location_timezone] read the nested entries
    [location.city.name] and [location.timezone.code] of the configuration.
    With a location dictionary that lacks the ["city"] (["timezone"]) entry
    they raise [KeyError] instead of returning [None]. *)
Theorem location_lookups self loc :
  location self = VDict loc ->
  (forall city name,
      loc !! "city" = Some (VDict city) -> city !! "name" = Some name ->
      location_pretty self = Ok name)
  /\ (forall timezone code,
         loc !! "timezone" = Some (VDict timezone) ->
         timezone !! "code" = Some code ->
         location_timezone self = Ok code)
  /\ (loc !! "city" = None -> location_pretty self = Raise (KeyError "city"))
  /\ (loc !! "timezone" = None ->
      location_timezone self = Raise (KeyError "timezone")).
Proof.
  intros Hloc.
  assert (Htruthy : forall (d : Dict) k v,
             d !! k = Some v -> truthy (VDict d) = true).
  { intros d k v Hk. cbn [truthy]. rewrite bool_decide_eq_false_2; [done|].
    intros ->. by rewrite lookup_empty in Hk. }
  unfold location_pretty, location_timezone. rewrite Hloc. split_and!.
  - intros city name Hcity Hname. cbn [getitem]. rewrite Hcity. cbn [Py.bind].
    rewrite (Htruthy _ _ _ Hname). cbn [getitem Py.bind]. by rewrite Hname.
  - intros timezone code Htz Hcode. cbn [getitem]. rewrite Htz. cbn [Py.bind].
    rewrite (Htruthy _ _ _ Hcode). cbn [getitem Py.bind]. by rewrite Hcode.
  - intros Hcity. cbn [getitem]. by rewrite Hcity.
  - intros Htz. cbn [getitem]. by rewrite Htz.
Qed.

(** The sample skill is in Berlin, and has no timezone configured. *)
Lemma location_lookups_witness :
  location Sample.wetter
  = VDict {[ "city" := VDict {[ "name" := VStr "Berlin" ]} ]}
  /\ location_pretty Sample.wetter = Ok (VStr "Berlin")
  /\ location_timezone Sample.wetter = Raise (KeyError "timezone").
Proof.
  assert (H : location Sample.wetter
              = VDict {[ "city" := VDict {[ "name" := VStr "Berlin" ]} ]})
    by (vm_compute; reflexivity).
  split; [exact H|].
  destruct (location_lookups Sample.wetter _ H)
    as (Hpretty & _ & _ & Htimezone).
  split; [exact (Hpretty {[ "name" := VStr "Berlin" ]} (VStr "Berlin")
                   eq_refl eq_refl)
         |exact (Htimezone eq_refl)].
Defined.

Lemma concat_one_char (replace : Ascii.ascii -> Ascii.ascii)
    (chars : list Ascii.ascii) :
  String.concat "" (map (fun char => String (replace char) "") chars)
  = String.string_of_list_ascii (map replace chars).
Proof.
  induction chars as [|char chars IH]; [done|].
  cbn [map String.concat String.string_of_list_ascii]. rewrite <- IH.
  destruct chars; reflexivity.
Qed.

Lemma alphanumeric_skill_id_chars isalnum self :
  alphanumeric_skill_id isalnum self
  = String.string_of_list_ascii
      (map (fun char => if isalnum char then char
                        else Ascii.ascii_of_nat 95)
           (String.list_ascii_of_string (skill_id self))).
Proof.
  unfold alphanumeric_skill_id. rewrite <- concat_one_char. f_equal.
  apply map_ext. intros char. by destruct (isalnum char).
Qed.

Lemma length_string_of_list_ascii chars :
  String.length (String.string_of_list_ascii chars) = length chars.
Proof. induction chars as [|? ? IH]; [done|]. simpl. by rewrite IH. Qed.

(** X5.  [alphanumeric_skill_id] keeps the length of the skill id, leaves
    only alphanumeric characters and underscores, and is idempotent: the
    alphanumeric id of a skill whose id is already an alphanumeric id is
    that id. *)
Theorem alphanumeric_skill_id_properties isalnum self self' :
  skill_id self' = alphanumeric_skill_id isalnum self ->
  String.length (alphanumeric_skill_id isalnum self)
  = String.length (skill_id self)
  /\ Forall (fun char => isalnum char = true \/ char = Ascii.ascii_of_nat 95)
       (String.list_ascii_of_string (alphanumeric_skill_id isalnum self))
  /\ alphanumeric_skill_id isalnum self' = skill_id self'.
Proof.
  intros Hid. rewrite !alphanumeric_skill_id_chars, Hid,
    alphanumeric_skill_id_chars.
  rewrite !String.list_ascii_of_string_of_list_ascii.
  split_and!.
  - rewrite length_string_of_list_ascii, length_map.
    rewrite <- (String.string_of_list_ascii_of_string (skill_id self)) at 2.
    by rewrite length_string_of_list_ascii.
  - apply Forall_forall. intros char (original & -> & _)%list_elem_of_fmap.
    destruct (isalnum original) eqn:Hal; auto.
  - f_equal. rewrite map_map. apply map_ext. intros char.
    destruct (isalnum char) eqn:Hal; [by rewrite Hal|].
    by destruct (isalnum (Ascii.ascii_of_nat 95)).
Qed.

(** The id of the sample skill, and the skill registered under it. *)
Lemma alphanumeric_skill_id_properties_witness :
  skill_id Sample.renamed = alphanumeric_skill_id Sample.isalnum Sample.wetter
  /\ alphanumeric_skill_id Sample.isalnum Sample.wetter
     = "wetter_skill_mycroftai"
  /\ alphanumeric_skill_id Sample.isalnum Sample.renamed
     = skill_id Sample.renamed.
Proof.
  assert (H : skill_id Sample.renamed
              = alphanumeric_skill_id Sample.isalnum Sample.wetter)
    by (vm_compute; reflexivity).
  split; [exact H|]. split; [vm_compute; reflexivity|].
  exact (proj2 (proj2 (alphanumeric_skill_id_properties Sample.isalnum
                         Sample.wetter Sample.renamed H))).
Defined.

Lemma string_app_assoc (a b c : string) : (a +:+ b) +:+ c = a +:+ b +:+ c.
Proof.
  induction a as [|char a IH]; [done|].
  change (String char ((a +:+ b) +:+ c) = String char (a +:+ b +:+ c)).
  by rewrite IH.
Qed.

Lemma string_app_nil_r (a : string) : a +:+ "" = a.
Proof.
  induction a as [|char a IH]; [done|].
  change (String char (a +:+ "") = String char a). by rewrite IH.
Qed.

Lemma concat_empty_cons (line : string) (lines : list string) :
  String.concat "" (line :: lines) = line +:+ String.concat "" lines.
Proof.
  destruct lines; cbn [String.concat]; [by rewrite string_app_nil_r|done].
Qed.

Lemma simple_trace_fold strip (lines : list string) (tb : string) :
  fold_left (fun tb line => if str_truthy (strip line) then tb +:+ line else tb)
            lines tb
  = tb +:+ String.concat ""
             (List.filter (fun line => str_truthy (strip line)) lines).
Proof.
  revert tb. induction lines as [|line lines IH]; intros tb.
  - cbn. by rewrite string_app_nil_r.
  - cbn [fold_left List.filter]. rewrite IH.
    destruct (str_truthy (strip line)); [|done].
    by rewrite concat_empty_cons, string_app_assoc.
Qed.

(** X6.  [simple_trace] never shows the last entry of the stack trace: the
    result is the header line followed by the entries before the last, in
    order, without those that are blank.  An empty trace, like a trace of
    one entry, gives the header alone. *)
Theorem simple_trace_drops_last strip stack_trace last_line :
  simple_trace strip (stack_trace ++ [last_line])
  = "Traceback:" +:+ String (Ascii.ascii_of_nat 10) ""
    +:+ String.concat ""
          (List.filter (fun line => str_truthy (strip line)) stack_trace)
  /\ simple_trace strip [] = "Traceback:" +:+ String (Ascii.ascii_of_nat 10) ""
  /\ simple_trace strip [last_line] = simple_trace strip [].
Proof.
  unfold simple_trace. split_and!; [|done|done].
  rewrite removelast_last, simple_trace_fold. by rewrite string_app_assoc.
Qed.

(** ** When the compiler returns, and what it returns *)

Lemma find_resource_same host self self' res_name res_dirname :
  root_dir self' = root_dir self -> config_core self' = config_core self ->
  find_resource host self' res_name res_dirname
  = find_resource host self res_name res_dirname.
Proof.
  intros Hroot Hconfig.
  unfold find_resource, _find_resource, lang. by rewrite Hroot, Hconfig.
Qed.

Lemma interleave_same host self self' speak_wait pairs actions :
  skill_id self' = skill_id self -> root_dir self' = root_dir self ->
  config_core self' = config_core self ->
  dialog_renderer self' = dialog_renderer self ->
  interleave host self' speak_wait pairs actions
  = interleave host self speak_wait pairs actions.
Proof.
  intros Hid Hroot Hconfig Hrenderer. revert actions.
  induction pairs as [|[maybe_dialog maybe_gui] pairs IH]; intros actions;
    [done|].
  cbn [interleave]. rewrite !interleave_step_spec.
  assert (show_of host self' maybe_gui = show_of host self maybe_gui) as ->.
  { unfold show_of, show_page_action. destruct maybe_gui as [g|]; [|done].
    by rewrite (find_resource_same _ _ _ _ _ Hroot Hconfig), Hid. }
  assert (speak_of self' speak_wait maybe_dialog
          = speak_of self speak_wait maybe_dialog) as ->.
  { unfold speak_of, render. by rewrite Hrenderer. }
  destruct (show_of host self maybe_gui) as [shown|e]; [|done].
  destruct (speak_of self speak_wait maybe_dialog) as [spoken|e]; [|done].
  cbn [Py.bind]. apply IH.
Qed.

Lemma build_actions_same_attributes host self self' dialog speak speak_wait
    gui gui_clear audio_alert music_uri message message_send message_delay
    expect_response :
  skill_id self' = skill_id self -> root_dir self' = root_dir self ->
  config_core self' = config_core self ->
  dialog_renderer self' = dialog_renderer self ->
  _mycroft_session_id self' = _mycroft_session_id self ->
  _build_actions host self' dialog speak speak_wait gui gui_clear audio_alert
    music_uri message message_send message_delay expect_response
  = _build_actions host self dialog speak speak_wait gui gui_clear audio_alert
      music_uri message message_send message_delay expect_response.
Proof.
  intros Hid Hroot Hconfig Hrenderer Hsession.
  rewrite !_build_actions_layout.
  rewrite (interleave_same _ _ _ _ _ _ Hid Hroot Hconfig Hrenderer).
  destruct (interleave host self speak_wait _ []) as [body|e]; [|done].
  cbn [Py.bind]. f_equal.
  unfold layout, seg_message_start, seg_message_end, message_start_action,
    message_end_action, message_action_data.
  by rewrite Hsession.
Qed.

Lemma collect_Ok_inv at_position positions body :
  collect at_position positions = Ok body ->
  (forall i, i ∈ positions -> exists here, at_position i = Ok here)
  /\ (forall a : Action, a ∈ body ->
      exists i here, i ∈ positions /\ at_position i = Ok here /\ a ∈ here).
Proof.
  revert body. induction positions as [|i positions IH]; intros body.
  - intros [= <-]. split; intros ? Hin; by apply elem_of_nil in Hin.
  - cbn [collect].
    destruct (at_position i) as [here|e] eqn:Hhere; [|done].
    destruct (collect at_position positions) as [rest|e]; [|done].
    cbn [Py.bind]. intros [= <-]. destruct (IH rest eq_refl) as [IH1 IH2].
    split.
    + intros j [->|Hj]%elem_of_cons; [by eexists|by apply IH1].
    + intros a [Ha|Ha]%elem_of_app.
      * exists i, here. split_and!; [by left|done|done].
      * destruct (IH2 a Ha) as (j & there & Hj & Hthere & Hin).
        exists j, there. split_and!; [by right|done|done].
Qed.

(** A successful block: every page resolved, every dialog rendered, and
    every action is the page action of a GUI item or the speech action of a
    dialog item. *)
Lemma positional_block_Ok_inv host self speak_wait dialogs guis body :
  positional_block host self speak_wait dialogs guis = Ok body ->
  Forall (resolves host self) guis
  /\ Forall (renders self) dialogs
  /\ forall a : Action, a ∈ body ->
       (exists g path,
           g ∈ guis
           /\ find_resource host self (gui_item g).1 (Some "ui")
              = Ok (Some path)
           /\ a = show_page_action self path (gui_item g).1 (gui_item g).2)
       \/ (exists d utterance,
              d ∈ dialogs
              /\ render self (dialog_item d).1 (dialog_item d).2
                 = Ok utterance
              /\ a = speak_dialog_action utterance (dialog_item d).1
                       speak_wait).
Proof.
  unfold positional_block. intros [Hall Hin]%collect_Ok_inv.
  assert (Hpos : forall i, i < max (length dialogs) (length guis) ->
            exists shown spoken,
              show_of host self (guis !! i) = Ok shown
              /\ speak_of self speak_wait (dialogs !! i) = Ok spoken).
  { intros i Hi. destruct (Hall i) as [here Hhere]; [apply elem_of_seq; lia|].
    destruct (show_of host self (guis !! i)) as [shown|e]; [|done].
    destruct (speak_of self speak_wait (dialogs !! i)) as [spoken|e]; [|done].
    by exists shown, spoken. }
  split_and!.
  - apply Forall_forall. intros g Hg.
    apply list_elem_of_lookup in Hg as [i Hi].
    destruct (Hpos i) as (shown & _ & Hshown & _).
    { apply lookup_lt_Some in Hi. lia. }
    rewrite Hi in Hshown. apply show_of_Ok_inv in Hshown as (path & ? & _).
    by exists path.
  - apply Forall_forall. intros d Hd.
    apply list_elem_of_lookup in Hd as [i Hi].
    destruct (Hpos i) as (_ & spoken & _ & Hspoken).
    { apply lookup_lt_Some in Hi. lia. }
    rewrite Hi in Hspoken. apply speak_of_Ok_inv in Hspoken as (u & ? & _).
    by exists u.
  - intros a Ha. destruct (Hin a Ha) as (i & here & _ & Hhere & Hahere).
    destruct (show_of host self (guis !! i)) as [shown|e] eqn:Hshown; [|done].
    destruct (speak_of self speak_wait (dialogs !! i)) as [spoken|e]
      eqn:Hspoken; [|done].
    cbn [Py.bind] in Hhere. injection Hhere as <-.
    apply elem_of_app in Hahere as [Hin'|Hin'].
    + left. apply show_of_Ok_inv in Hshown.
      destruct (guis !! i) as [g|] eqn:Hg.
      * destruct Hshown as (path & Hpath & ->).
        apply list_elem_of_singleton in Hin' as ->.
        exists g, path. split_and!; [by eapply list_elem_of_lookup_2|done|done].
      * subst shown. by apply elem_of_nil in Hin'.
    + right. apply speak_of_Ok_inv in Hspoken.
      destruct (dialogs !! i) as [d|] eqn:Hd.
      * destruct Hspoken as (u & Hu & ->).
        apply list_elem_of_singleton in Hin' as ->.
        exists d, u. split_and!; [by eapply list_elem_of_lookup_2|done|done].
      * subst spoken. by apply elem_of_nil in Hin'.
Qed.

(** X8.  The compiler returns exactly when every GUI page resolves to a file
    and every dialog renders: one page that is not found, or one dialog that
    does not render, and no list is returned at all. *)
Theorem build_actions_returns_iff host self dialog speak speak_wait gui
    gui_clear audio_alert music_uri message message_send message_delay
    expect_response :
  (exists actions,
      _build_actions host self dialog speak speak_wait gui gui_clear
        audio_alert music_uri message message_send message_delay
        expect_response = Ok actions)
  <-> Forall (resolves host self) (guis_of gui)
      /\ Forall (renders self) (dialogs_of dialog).
Proof.
  split.
  - intros [actions Hactions].
    apply _build_actions_Ok in Hactions as (body & Hbody & _).
    rewrite interleave_positional in Hbody.
    apply positional_block_Ok_inv in Hbody as (? & ? & _). by split.
  - intros [Hguis Hdialogs]. by apply _build_actions_returns.
Qed.

(** X9.  A compiled list drops nothing and adds nothing: one [show_page]
    action per GUI item, one [speak] action per dialog and one more for a
    literal utterance, and one action each for an attached message, a
    non-empty audio alert, a non-empty music URI and an expected
    response. *)
Theorem build_actions_census host self dialog speak speak_wait gui gui_clear
    audio_alert music_uri message message_send message_delay expect_response
    actions :
  _build_actions host self dialog speak speak_wait gui gui_clear audio_alert
    music_uri message message_send message_delay expect_response = Ok actions ->
  count_type "show_page" actions = length (guis_of gui)
  /\ count_type "speak" actions
     = length (dialogs_of dialog) + (if is_some speak then 1 else 0)
  /\ count_type "message" actions = (if is_some message then 1 else 0)
  /\ count_type "audio_alert" actions
     = (if opt_str_truthy audio_alert then 1 else 0)
  /\ count_type "stream_music" actions
     = (if opt_str_truthy music_uri then 1 else 0)
  /\ count_type "get_response" actions = (if expect_response then 1 else 0).
Proof.
  intros Hactions.
  apply _build_actions_Ok in Hactions as (body & Hbody & ->).
  destruct (interleave_counts _ _ _ _ _ _ Hbody) as [Hshow Hspeak].
  rewrite !count_layout, Hshow, Hspeak.
  rewrite !(count_body _ _ _ _ _ _ Hbody) by done.
  unfold tally. cbn [String.eqb Ascii.eqb Bool.eqb].
  destruct message as [m|], message_send, (is_some speak),
    (opt_str_truthy audio_alert), (opt_str_truthy music_uri), expect_response;
    cbn [is_some andb]; repeat case_bool_decide; try done;
    split_and!; lia.
Qed.

(** One page, one dialog and a literal utterance: one [show_page] action
    and two [speak] actions. *)
Lemma build_actions_census_witness :
  _build_actions Demo.host Demo.skill (Some (one_dialog (dialog_str "d1")))
    (Some "Hello") true (Some (one_gui (gui_str "g1"))) AUTO None None None
    MessageSend.AT_START 0%float false = Ok Sample.page_and_speech
  /\ count_type "show_page" Sample.page_and_speech = 1
  /\ count_type "speak" Sample.page_and_speech = 2
  /\ count_type "message" Sample.page_and_speech = 0
  /\ count_type "audio_alert" Sample.page_and_speech = 0
  /\ count_type "stream_music" Sample.page_and_speech = 0
  /\ count_type "get_response" Sample.page_and_speech = 0.
Proof.
  assert (H : _build_actions Demo.host Demo.skill
                (Some (one_dialog (dialog_str "d1"))) (Some "Hello") true
                (Some (one_gui (gui_str "g1"))) AUTO None None None
                MessageSend.AT_START 0%float false = Ok Sample.page_and_speech)
    by (vm_compute; reflexivity).
  split; [exact H|].
  exact (build_actions_census _ _ _ _ _ _ _ _ _ _ _ _ _ _ H).
Defined.

(** An action of kind [t] is not in a list that holds none of that kind. *)
Lemma not_elem_of_count_0 t (a : Action) (xs : list Action) :
  has_type t a = true -> count_type t xs = 0 -> a ∉ xs.
Proof.
  intros Ha Hcount Hin. apply list_elem_of_split in Hin as (l1 & l2 & ->).
  rewrite count_type_app, count_type_cons, Ha in Hcount. lia.
Qed.

(** X10.  Every [show_page] action of a compiled list belongs to one of the
    GUI items: its page is ["file://"] followed by the path that
    [find_resource] found for the item's page in ["ui"], its data is the
    item's data, and its namespace is the skill id, a dot and the page
    name. *)
Theorem build_actions_show_page_origin host self dialog speak speak_wait gui
    gui_clear audio_alert music_uri message message_send message_delay
    expect_response actions (a : Action) :
  _build_actions host self dialog speak speak_wait gui gui_clear audio_alert
    music_uri message message_send message_delay expect_response = Ok actions ->
  a ∈ actions -> has_type "show_page" a = true ->
  exists g path,
    g ∈ guis_of gui
    /\ find_resource host self (gui_item g).1 (Some "ui") = Ok (Some path)
    /\ a !! "page" = Some (VStr ("file://" +:+ path))
    /\ a !! "data" = Some (of_opt_dict (gui_item g).2)
    /\ a !! "namespace"
       = Some (VStr (skill_id self +:+ "." +:+ (gui_item g).1)).
Proof.
  intros Hactions Ha Hkind.
  apply _build_actions_Ok in Hactions as (body & Hbody & ->).
  assert (Hin : a ∈ body).
  { unfold layout, after_message_end in Ha. cbv zeta in Ha.
    rewrite !elem_of_app in Ha.
    destruct Ha as [Ha|[Ha|[Ha|[Ha|[Ha|[Ha|[Ha|[Ha|Ha]]]]]]]]; [| | |done|..];
      exfalso; revert Ha; apply (not_elem_of_count_0 _ _ _ Hkind).
    - rewrite count_seg_message_start. unfold tally. by case_match.
    - rewrite count_seg_clear_start. unfold tally. by case_match.
    - rewrite count_seg_alert. unfold tally. by case_match.
    - rewrite count_seg_speak. unfold tally. by case_match.
    - rewrite count_seg_message_end. unfold tally. by case_match.
    - rewrite count_seg_music. unfold tally. by case_match.
    - rewrite count_seg_get_response. unfold tally. by case_match.
    - rewrite count_seg_trailing. unfold tally. by repeat case_match. }
  rewrite interleave_positional in Hbody.
  apply positional_block_Ok_inv in Hbody as (_ & _ & Hbody).
  destruct (Hbody a Hin) as [(g & path & Hg & Hpath & ->)
                            |(d & u & _ & _ & ->)]; [|done].
  exists g, path. split_and!; [done|done|reflexivity..].
Qed.

(** The [show_page] action of the demo compile belongs to page ["g1"]. *)
Lemma build_actions_show_page_origin_witness :
  _build_actions Demo.host Demo.skill (Some (one_dialog (dialog_str "d1")))
    (Some "Hello") true (Some (one_gui (gui_str "g1"))) AUTO None None None
    MessageSend.AT_START 0%float false = Ok Sample.page_and_speech
  /\ Sample.page_and_speech !! 0
     = Some (show_page_action Demo.skill "/opt/skill/ui/g1" "g1" None)
  /\ has_type "show_page"
       (show_page_action Demo.skill "/opt/skill/ui/g1" "g1" None) = true
  /\ exists g path,
       g ∈ guis_of (Some (one_gui (gui_str "g1")))
       /\ find_resource Demo.host Demo.skill (gui_item g).1 (Some "ui")
          = Ok (Some path)
       /\ show_page_action Demo.skill "/opt/skill/ui/g1" "g1" None !! "page"
          = Some (VStr ("file://" +:+ path)).
Proof.
  assert (H : _build_actions Demo.host Demo.skill
                (Some (one_dialog (dialog_str "d1"))) (Some "Hello") true
                (Some (one_gui (gui_str "g1"))) AUTO None None None
                MessageSend.AT_START 0%float false = Ok Sample.page_and_speech)
    by (vm_compute; reflexivity).
  assert (Hat : Sample.page_and_speech !! 0
                = Some (show_page_action Demo.skill "/opt/skill/ui/g1" "g1"
                          None)) by reflexivity.
  assert (Htype : has_type "show_page"
                    (show_page_action Demo.skill "/opt/skill/ui/g1" "g1" None)
                  = true) by (vm_compute; reflexivity).
  split; [exact H|]. split; [exact Hat|]. split; [exact Htype|].
  destruct (build_actions_show_page_origin _ _ _ _ _ _ _ _ _ _ _ _ _ _ _ H
              (list_elem_of_lookup_2 _ _ _ Hat) Htype)
    as (g & path & Hg & Hfound & Hpage & _).
  exists g, path. split; [exact Hg|]. split; [exact Hfound|exact Hpage].
Defined.

(** X11.  Every [speak] action of a compiled list waits as [speak_wait] says,
    and is either the literal utterance, with no dialog name, or the
    rendering of one of the dialogs, under that dialog's name. *)
Theorem build_actions_speak_origin host self dialog speak speak_wait gui
    gui_clear audio_alert music_uri message message_send message_delay
    expect_response actions (a : Action) :
  _build_actions host self dialog speak speak_wait gui gui_clear audio_alert
    music_uri message message_send message_delay expect_response = Ok actions ->
  a ∈ actions -> has_type "speak" a = true ->
  a !! "wait" = Some (VBool speak_wait)
  /\ ((exists utterance,
          speak = Some utterance
          /\ a !! "utterance" = Some (VStr utterance)
          /\ a !! "dialog" = None)
      \/ (exists d utterance,
             d ∈ dialogs_of dialog
             /\ render self (dialog_item d).1 (dialog_item d).2 = Ok utterance
             /\ a !! "utterance" = Some (VStr utterance)
             /\ a !! "dialog" = Some (VStr (dialog_item d).1))).
Proof.
  intros Hactions Ha Hkind.
  apply _build_actions_Ok in Hactions as (body & Hbody & ->).
  assert (Hin : a ∈ body \/ a ∈ seg_speak speak speak_wait).
  { unfold layout, after_message_end in Ha. cbv zeta in Ha.
    rewrite !elem_of_app in Ha.
    destruct Ha as [Ha|[Ha|[Ha|[Ha|[Ha|[Ha|[Ha|[Ha|Ha]]]]]]]];
      [| | |by left|by right|..];
      exfalso; revert Ha; apply (not_elem_of_count_0 _ _ _ Hkind).
    - rewrite count_seg_message_start. unfold tally. by case_match.
    - rewrite count_seg_clear_start. unfold tally. by case_match.
    - rewrite count_seg_alert. unfold tally. by case_match.
    - rewrite count_seg_message_end. unfold tally. by case_match.
    - rewrite count_seg_music. unfold tally. by case_match.
    - rewrite count_seg_get_response. unfold tally. by case_match.
    - rewrite count_seg_trailing. unfold tally. by repeat case_match. }
  destruct Hin as [Hin|Hin].
  - rewrite interleave_positional in Hbody.
    apply positional_block_Ok_inv in Hbody as (_ & _ & Hbody).
    destruct (Hbody a Hin) as [(g & path & _ & _ & ->)
                              |(d & u & Hd & Hu & ->)]; [done|].
    split; [reflexivity|]. right. exists d, u.
    split_and!; [done|done|reflexivity..].
  - unfold seg_speak in Hin. destruct speak as [utterance|];
      [|by apply elem_of_nil in Hin].
    apply list_elem_of_singleton in Hin as ->.
    split; [reflexivity|]. left. exists utterance.
    split_and!; reflexivity.
Qed.

(** The second action of the demo compile speaks the rendering of dialog
    ["d1"], and waits. *)
Lemma build_actions_speak_origin_witness :
  _build_actions Demo.host Demo.skill (Some (one_dialog (dialog_str "d1")))
    (Some "Hello") true (Some (one_gui (gui_str "g1"))) AUTO None None None
    MessageSend.AT_START 0%float false = Ok Sample.page_and_speech
  /\ Sample.page_and_speech !! 1 = Some (speak_dialog_action "say d1" "d1" true)
  /\ has_type "speak" (speak_dialog_action "say d1" "d1" true) = true
  /\ speak_dialog_action "say d1" "d1" true !! "wait" = Some (VBool true).
Proof.
  assert (H : _build_actions Demo.host Demo.skill
                (Some (one_dialog (dialog_str "d1"))) (Some "Hello") true
                (Some (one_gui (gui_str "g1"))) AUTO None None None
                MessageSend.AT_START 0%float false = Ok Sample.page_and_speech)
    by (vm_compute; reflexivity).
  assert (Hat : Sample.page_and_speech !! 1
                = Some (speak_dialog_action "say d1" "d1" true))
    by reflexivity.
  assert (Htype : has_type "speak" (speak_dialog_action "say d1" "d1" true)
                  = true) by (vm_compute; reflexivity).
  split; [exact H|]. split; [exact Hat|]. split; [exact Htype|].
  exact (proj1 (build_actions_speak_origin _ _ _ _ _ _ _ _ _ _ _ _ _ _ _ H
                  (list_elem_of_lookup_2 _ _ _ Hat) Htype)).
Defined.

(** ** Starting, continuing and ending sessions *)

Lemma envelope_actions_lookup (m : Message) (actions : list Action) :
  data m !! "actions" = Some (VList (VDict <$> actions)) ->
  envelope_actions m = actions.
Proof. unfold envelope_actions. intros ->. apply omap_VDict. Qed.

(** On a bound skill the public methods are those of the entry points. *)
Lemma bound_emit_start_session host dialog speak speak_wait gui gui_clear
    audio_alert music_uri expect_response message continue_session
    message_send message_delay mycroft_session_id self :
  Lifecycle.emit_start_session host true dialog speak speak_wait gui gui_clear
    audio_alert music_uri expect_response message continue_session
    message_send message_delay mycroft_session_id self
  = emit_start_session host dialog speak speak_wait gui gui_clear audio_alert
      music_uri expect_response message continue_session message_send
      message_delay mycroft_session_id self.
Proof.
  unfold Lifecycle.emit_start_session, emit_start_session,
    Lifecycle.bus_emit.
  destruct mycroft_session_id as [id|];
    by destruct (_build_actions _ _ _ _ _ _ _ _ _ _ _ _ _).
Qed.

Lemma bound_acknowledge host self :
  Lifecycle.acknowledge host true self = acknowledge host self.
Proof. reflexivity. Qed.

(** X12.  [emit_start_session] whose request compiles, on a skill bound to
    a bus: it emits exactly one message, a [mycroft.session.start] envelope
    with the compiled actions, and returns the session id that envelope
    carries, the id it was given or else a newly drawn one; the active
    session id is left as it was.  On a skill that is not bound yet, the
    same call raises ["Accessed MycroftSkill.bus in __init__"] once the
    request is compiled, and emits nothing. *)
Theorem emit_start_session_emits host self dialog speak speak_wait gui
    gui_clear audio_alert music_uri expect_response message continue_session
    message_send message_delay mycroft_session_id actions :
  _build_actions host self dialog speak speak_wait gui gui_clear audio_alert
    music_uri message message_send message_delay expect_response = Ok actions ->
  (exists envelope final,
      Lifecycle.emit_start_session host true dialog speak speak_wait gui
        gui_clear audio_alert music_uri expect_response message
        continue_session message_send message_delay mycroft_session_id self
      = (Ok (default (uuid4 host (uuid4_calls self)) mycroft_session_id),
         final)
      /\ emit_start_session host dialog speak speak_wait gui gui_clear
           audio_alert music_uri expect_response message continue_session
           message_send message_delay mycroft_session_id self
         = (Ok (default (uuid4 host (uuid4_calls self)) mycroft_session_id),
            final)
      /\ bus final = bus self ++ [envelope]
      /\ _mycroft_session_id final = _mycroft_session_id self
      /\ msg_type envelope = "mycroft.session.start"
      /\ data envelope !! "mycroft_session_id"
         = Some (VStr (default (uuid4 host (uuid4_calls self))
                         mycroft_session_id))
      /\ data envelope !! "skill_id" = Some (VStr (skill_id self))
      /\ data envelope !! "continue_session" = Some (VBool continue_session)
      /\ envelope_actions envelope = actions)
  /\ (exists final,
        Lifecycle.emit_start_session host false dialog speak speak_wait gui
          gui_clear audio_alert music_uri expect_response message
          continue_session message_send message_delay mycroft_session_id self
        = (Raise (PlainException "Accessed MycroftSkill.bus in __init__"),
           final)
        /\ bus final = bus self
        /\ _mycroft_session_id final = _mycroft_session_id self).
Proof.
  intros Hactions. split.
  - rewrite bound_emit_start_session. unfold emit_start_session.
    destruct mycroft_session_id as [id|]; cbn [default].
    + rewrite Hactions. do 2 eexists. split; [reflexivity|].
      split; [reflexivity|].
      split_and!; try reflexivity. by apply envelope_actions_lookup.
    + rewrite (build_actions_same_attributes host self (draw_uuid self))
        by reflexivity.
      rewrite Hactions. do 2 eexists. split; [reflexivity|].
      split; [reflexivity|].
      split_and!; try reflexivity. by apply envelope_actions_lookup.
  - unfold Lifecycle.emit_start_session, Lifecycle.bus_emit.
    destruct mycroft_session_id as [id|].
    + rewrite Hactions. by eexists.
    + rewrite (build_actions_same_attributes host self (draw_uuid self))
        by reflexivity.
      rewrite Hactions. by eexists.
Qed.

(** The demo skill starts a session of its own: the first id drawn is
    returned and one envelope is emitted; not bound, it raises. *)
Lemma emit_start_session_emits_witness :
  _build_actions Demo.host Demo.skill None (Some "Hello") true None AUTO None
    None None MessageSend.AT_START 0%float false
  = Ok [speak_action "Hello" true]
  /\ (exists envelope final,
         Lifecycle.emit_start_session Demo.host true None (Some "Hello") true
           None AUTO None None false None false MessageSend.AT_START 0%float
           None Demo.skill
         = (Ok "u", final)
         /\ bus final = [envelope]
         /\ _mycroft_session_id final = VStr "R"
         /\ data envelope !! "mycroft_session_id" = Some (VStr "u")
         /\ envelope_actions envelope = [speak_action "Hello" true])
  /\ (Lifecycle.emit_start_session Demo.host false None (Some "Hello") true
        None AUTO None None false None false MessageSend.AT_START 0%float
        None Demo.skill).1
     = Raise (PlainException "Accessed MycroftSkill.bus in __init__").
Proof.
  assert (H : _build_actions Demo.host Demo.skill None (Some "Hello") true
                None AUTO None None None MessageSend.AT_START 0%float false
              = Ok [speak_action "Hello" true]) by (vm_compute; reflexivity).
  split; [exact H|].
  destruct (emit_start_session_emits Demo.host Demo.skill None (Some "Hello")
              true None AUTO None None false None false MessageSend.AT_START
              0%float None [speak_action "Hello" true] H)
    as [(envelope & final & Hrun & _ & Hbus & Hsession & _ & Hid & _ & _
         & Hactions)
        (final' & Hraise & _)].
  split.
  - exists envelope, final.
    split; [exact Hrun|]. split; [exact Hbus|]. split; [exact Hsession|].
    split; [exact Hid|exact Hactions].
  - exact (f_equal fst Hraise).
Defined.

(** X13.  [emit_start_session] whose request does not compile raises the
    compiler's exception and emits nothing. *)
Theorem emit_start_session_raises host self dialog speak speak_wait gui
    gui_clear audio_alert music_uri expect_response message continue_session
    message_send message_delay mycroft_session_id e :
  _build_actions host self dialog speak speak_wait gui gui_clear audio_alert
    music_uri message message_send message_delay expect_response = Raise e ->
  exists final,
    emit_start_session host dialog speak speak_wait gui gui_clear audio_alert
      music_uri expect_response message continue_session message_send
      message_delay mycroft_session_id self
    = (Raise e, final)
    /\ bus final = bus self
    /\ _mycroft_session_id final = _mycroft_session_id self.
Proof.
  intros Hactions. unfold emit_start_session.
  destruct mycroft_session_id as [id|].
  - rewrite Hactions. by eexists.
  - rewrite (build_actions_same_attributes host self (draw_uuid self))
      by reflexivity.
    rewrite Hactions. by eexists.
Qed.

(** A page that is not on disk: nothing is emitted. *)
Lemma emit_start_session_raises_witness :
  _build_actions Demo.host Demo.skill None None true
    (Some (one_gui (gui_str "missing"))) AUTO None None None
    MessageSend.AT_START 0%float false
  = Raise (TypeError "can only concatenate str to str")
  /\ exists final,
       emit_start_session Demo.host None None true
         (Some (one_gui (gui_str "missing"))) AUTO None None false None false
         MessageSend.AT_START 0%float None Demo.skill
       = (Raise (TypeError "can only concatenate str to str"), final)
       /\ bus final = [].
Proof.
  assert (H : _build_actions Demo.host Demo.skill None None true
                (Some (one_gui (gui_str "missing"))) AUTO None None None
                MessageSend.AT_START 0%float false
              = Raise (TypeError "can only concatenate str to str"))
    by (vm_compute; reflexivity).
  split; [exact H|].
  destruct (emit_start_session_raises Demo.host Demo.skill None None true
              (Some (one_gui (gui_str "missing"))) AUTO None None false None
              false MessageSend.AT_START 0%float None _ H)
    as (final & Hrun & Hbus & _).
  exists final. split; [exact Hrun|exact Hbus].
Defined.

Lemma emit_start_session_Ok_inv host self dialog speak speak_wait gui
    gui_clear audio_alert music_uri expect_response message continue_session
    message_send message_delay mycroft_session_id id final :
  emit_start_session host dialog speak speak_wait gui gui_clear audio_alert
    music_uri expect_response message continue_session message_send
    message_delay mycroft_session_id self = (Ok id, final) ->
  id = default (uuid4 host (uuid4_calls self)) mycroft_session_id
  /\ uuid4_calls final
     = (if is_some mycroft_session_id then 0 else 1) + uuid4_calls self
  /\ skill_id final = skill_id self /\ root_dir final = root_dir self
  /\ config_core final = config_core self
  /\ dialog_renderer final = dialog_renderer self
  /\ _mycroft_session_id final = _mycroft_session_id self
  /\ exists envelope,
       bus final = bus self ++ [envelope]
       /\ msg_type envelope = "mycroft.session.start"
       /\ data envelope !! "mycroft_session_id" = Some (VStr id).
Proof.
  unfold emit_start_session.
  destruct mycroft_session_id as [given|]; cbn [default];
    destruct (_build_actions _ _ _ _ _ _ _ _ _ _ _ _ _) as [actions|e];
    intros [= <- <-]; split_and!; try reflexivity;
    eexists; split_and!; reflexivity.
Qed.

(** X14.  Two sessions started one after the other without an explicit id
    get the ids of two successive draws, hence different ids as long as
    [uuid4] does not repeat itself. *)
Theorem successive_sessions_differ host self dialog speak speak_wait gui
    gui_clear audio_alert music_uri expect_response message continue
    message_send message_delay id1 self1
    dialog' speak' speak_wait' gui' gui_clear' audio_alert' music_uri'
    expect_response' message' continue' message_send' message_delay'
    id2 self2 :
  (forall i j, uuid4 host i = uuid4 host j -> i = j) ->
  emit_start_session host dialog speak speak_wait gui gui_clear audio_alert
    music_uri expect_response message continue message_send message_delay
    None self = (Ok id1, self1) ->
  emit_start_session host dialog' speak' speak_wait' gui' gui_clear'
    audio_alert' music_uri' expect_response' message' continue'
    message_send' message_delay' None self1 = (Ok id2, self2) ->
  id1 = uuid4 host (uuid4_calls self)
  /\ id2 = uuid4 host (S (uuid4_calls self))
  /\ id1 ≠ id2.
Proof.
  intros Hinjective Hfirst Hsecond.
  apply emit_start_session_Ok_inv in Hfirst as (-> & Hcalls & _).
  apply emit_start_session_Ok_inv in Hsecond as (-> & _).
  cbn [default is_some] in *. rewrite Hcalls. split_and!; [done|done|].
  intros Heq%Hinjective. lia.
Qed.

Lemma demo_uuid4_length n :
  String.length (String.concat "" (replicate n "u")) = n.
Proof.
  induction n as [|n IH]; [done|].
  change (replicate (S n) "u") with ("u" :: replicate n "u").
  rewrite concat_empty_cons.
  change (S (String.length (String.concat "" (replicate n "u"))) = S n).
  by rewrite IH.
Qed.

Lemma demo_uuid4_inj i j : uuid4 Demo.host i = uuid4 Demo.host j -> i = j.
Proof.
  intros Heq. apply (f_equal String.length) in Heq.
  change (uuid4 Demo.host i) with (String.concat "" (replicate (S i) "u"))
    in Heq.
  change (uuid4 Demo.host j) with (String.concat "" (replicate (S j) "u"))
    in Heq.
  rewrite !demo_uuid4_length in Heq. by injection Heq.
Qed.

(** Two sessions started in a row by the demo skill: ids ["u"] and
    ["uu"]. *)
Lemma successive_sessions_differ_witness :
  (emit_start_session Demo.host None (Some "one") true None AUTO None None
     false None false MessageSend.AT_START 0%float None Demo.skill).1
  = Ok "u"
  /\ (emit_start_session Demo.host None (Some "two") true None AUTO None None
        false None false MessageSend.AT_START 0%float None
        (emit_start_session Demo.host None (Some "one") true None AUTO None
           None false None false MessageSend.AT_START 0%float None
           Demo.skill).2).1
     = Ok "uu"
  /\ "u" ≠ "uu".
Proof.
  assert (H1 : emit_start_session Demo.host None (Some "one") true None AUTO
                 None None false None false MessageSend.AT_START 0%float None
                 Demo.skill
               = (Ok "u",
                  (emit_start_session Demo.host None (Some "one") true None
                     AUTO None None false None false MessageSend.AT_START
                     0%float None Demo.skill).2))
    by (vm_compute; reflexivity).
  assert (H2 : emit_start_session Demo.host None (Some "two") true None AUTO
                 None None false None false MessageSend.AT_START 0%float None
                 (emit_start_session Demo.host None (Some "one") true None
                    AUTO None None false None false MessageSend.AT_START
                    0%float None Demo.skill).2
               = (Ok "uu",
                  (emit_start_session Demo.host None (Some "two") true None
                     AUTO None None false None false MessageSend.AT_START
                     0%float None
                     (emit_start_session Demo.host None (Some "one") true
                        None AUTO None None false None false
                        MessageSend.AT_START 0%float None Demo.skill).2).2))
    by (vm_compute; reflexivity).
  split; [exact (f_equal fst H1)|]. split; [exact (f_equal fst H2)|].
  exact (proj2 (proj2 (successive_sessions_differ _ _ _ _ _ _ _ _ _ _ _ _ _ _
                         _ _ _ _ _ _ _ _ _ _ _ _ _ _ _ _
                         demo_uuid4_inj H1 H2))).
Defined.

(** X15.  A [continue_session] envelope has exactly four fields: the session
    id (the one given, else the active one), the skill's id, the state to
    be echoed back ([None] when there is none) and the compiled actions,
    which read back from the envelope as the compiler returned them. *)
Theorem continue_session_envelope host self dialog speak speak_wait gui
    gui_clear audio_alert music_uri expect_response message message_send
    message_delay mycroft_session_id state envelope :
  continue_session host self dialog speak speak_wait gui gui_clear
    audio_alert music_uri expect_response message message_send message_delay
    mycroft_session_id state = Ok envelope ->
  msg_type envelope = "mycroft.session.continue"
  /\ dom (data envelope)
     = {[ "mycroft_session_id"; "skill_id"; "actions"; "state" ]}
  /\ data envelope !! "mycroft_session_id"
     = Some (match mycroft_session_id with
             | Some id => VStr id
             | None => _mycroft_session_id self
             end)
  /\ data envelope !! "skill_id" = Some (VStr (skill_id self))
  /\ data envelope !! "state" = Some (of_opt_dict state)
  /\ _build_actions host self dialog speak speak_wait gui gui_clear
       audio_alert music_uri message message_send message_delay
       expect_response = Ok (envelope_actions envelope).
Proof.
  unfold continue_session.
  destruct (_build_actions _ _ _ _ _ _ _ _ _ _ _ _ _) as [actions|e]; [|done].
  cbn [Py.bind]. intros [= <-]. cbn [msg_type data].
  split_and!; try reflexivity.
  f_equal. symmetry. by apply envelope_actions_lookup.
Qed.

(** The envelope of a question asked by the demo skill. *)
Lemma continue_session_envelope_witness :
  continue_session Demo.host Demo.skill None (Some "Which one?") true None
    AUTO None None true None MessageSend.AT_START 0%float None None
  = Ok {| msg_type := "mycroft.session.continue";
          data := {[ "mycroft_session_id" := VStr "R";
                     "skill_id" := VStr "demo";
                     "actions" :=
                       VList [VDict (speak_action "Which one?" true);
                              VDict get_response_action];
                     "state" := VNone ]} |}
  /\ dom ({[ "mycroft_session_id" := VStr "R"; "skill_id" := VStr "demo";
             "actions" := VList [VDict (speak_action "Which one?" true);
                                 VDict get_response_action];
             "state" := VNone ]} : Dict)
     = {[ "mycroft_session_id"; "skill_id"; "actions"; "state" ]}.
Proof.
  assert (H : continue_session Demo.host Demo.skill None (Some "Which one?")
                true None AUTO None None true None MessageSend.AT_START
                0%float None None
              = Ok {| msg_type := "mycroft.session.continue";
                      data := {[ "mycroft_session_id" := VStr "R";
                                 "skill_id" := VStr "demo";
                                 "actions" :=
                                   VList [VDict (speak_action "Which one?" true);
                                          VDict get_response_action];
                                 "state" := VNone ]} |})
    by (vm_compute; reflexivity).
  split; [exact H|].
  exact (proj1 (proj2
    (continue_session_envelope _ _ _ _ _ _ _ _ _ _ _ _ _ _ _ _ H))).
Defined.

(** ** The bus entry points *)

(** X16.  When the handler of an intent request returns, the wrapper emits
    exactly one message after whatever the handler emitted: the envelope the
    handler returned, or, when it returned [None], an empty
    [mycroft.session.end] envelope for the active session.  The fallback is
    not added to an envelope the handler returned. *)
Theorem handle_intent_handler_returns host intent_name handler inbound self
    self1 self2 answer :
  intent_prologue host inbound self = (Ok tt, self1) ->
  handler (unmunge_message host inbound (skill_id self1)) self1
  = (Ok answer, self2) ->
  _handle_intent host intent_name handler inbound self
  = (Ok tt, emit (default (empty_end_envelope self2) answer) self2)
  /\ bus (emit (default (empty_end_envelope self2) answer) self2)
     = bus self2 ++ [default (empty_end_envelope self2) answer].
Proof.
  intros Hprologue Hhandler. split; [|reflexivity].
  cbv beta iota delta [_handle_intent intent_prologue bindM try_except
                         reads modify ret] in Hprologue |- *.
  rewrite Hprologue, Hhandler. by destruct answer.
Qed.

(** A handler of the demo skill that returns an envelope of its own: it is
    the one message emitted. *)
Lemma handle_intent_handler_returns_witness :
  intent_prologue Demo.host Demo.request Demo.skill = (Ok tt, Demo.skill)
  /\ _handle_intent Demo.host "demo:intent"
       (fun _ => ret (Some Demo.notice)) Demo.request Demo.skill
     = (Ok tt, emit Demo.notice Demo.skill).
Proof.
  assert (H : intent_prologue Demo.host Demo.request Demo.skill
              = (Ok tt, Demo.skill)) by (vm_compute; reflexivity).
  split; [exact H|].
  exact (proj1 (handle_intent_handler_returns Demo.host "demo:intent"
                  (fun _ => ret (Some Demo.notice)) Demo.request Demo.skill
                  Demo.skill Demo.skill (Some Demo.notice) H eq_refl)).
Defined.

(** X17.  When the configuration has no ["sounds"] dictionary, [acknowledge]
    raises inside the wrapper's [try]: the handler is not called at all,
    and the request is answered as a failed one, with the spoken error and
    an empty [mycroft.session.end]. *)
Theorem handle_intent_acknowledge_raises host intent_name handler inbound
    self u :
  (forall sounds, get (config_core self) "sounds" ≠ VDict sounds) ->
  render self "skill.error"
    (Some {[ "skill" := VStr (camel_case_split host (name self)) ]}) = Ok u ->
  let entered :=
    set_session_id (get (data inbound) "mycroft_session_id") self in
  _handle_intent host intent_name handler inbound self
  = (Ok tt,
     emit (empty_end_envelope entered)
       (emit (error_start_envelope host entered u) (draw_uuid entered))).
Proof.
  intros Hsounds Hrender entered.
  cbv beta iota delta [_handle_intent bindM try_except reads modify ret].
  fold entered.
  assert (exists e, acknowledge host entered = (Raise e, entered)) as [e ->].
  { unfold acknowledge. change (config_core entered) with (config_core self).
    destruct (get (config_core self) "sounds") eqn:Hs; try by eexists.
    by destruct (Hsounds d). }
  cbv beta iota delta [emit_start_session].
  change (name entered) with (name self).
  erewrite build_actions_error_dialog; [reflexivity|exact Hrender].
Qed.

(** The renamed sample skill has no sounds configured: a handler that would
    answer with a message of its own is not reached. *)
Lemma handle_intent_acknowledge_raises_witness :
  get (config_core Sample.renamed) "sounds" = VNone
  /\ render Sample.renamed "skill.error"
       (Some {[ "skill" :=
                  VStr (camel_case_split Sample.disk (name Sample.renamed)) ]})
     = Ok "sag skill.error"
  /\ _handle_intent Sample.disk "wetter:intent"
       (fun _ => ret (Some Demo.notice)) Demo.request Sample.renamed
     = (Ok tt,
        emit (empty_end_envelope (set_session_id (VStr "R") Sample.renamed))
          (emit (error_start_envelope Sample.disk
                   (set_session_id (VStr "R") Sample.renamed)
                   "sag skill.error")
                (draw_uuid (set_session_id (VStr "R") Sample.renamed)))).
Proof.
  assert (Hsounds : get (config_core Sample.renamed) "sounds" = VNone)
    by (vm_compute; reflexivity).
  assert (Hrender : render Sample.renamed "skill.error"
                      (Some {[ "skill" :=
                                 VStr (camel_case_split Sample.disk
                                         (name Sample.renamed)) ]})
                    = Ok "sag skill.error") by (vm_compute; reflexivity).
  split; [exact Hsounds|]. split; [exact Hrender|].
  exact (handle_intent_acknowledge_raises Sample.disk "wetter:intent"
           (fun _ => ret (Some Demo.notice)) Demo.request Sample.renamed
           "sag skill.error"
           (fun sounds Heq =>
              eq_ind VNone
                (fun v => match v with VNone => True | _ => False end)
                I (VDict sounds) (eq_trans (eq_sym Hsounds) Heq))
           Hrender).
Defined.

(** X18.  [acknowledge] changes nothing of the skill but the bus, and every
    return falls under one of three cases.  It plays the sound: the skill
    is bound, the ["sounds"] dictionary of the configuration has a truthy
    ["acknowledge"] entry that [resolve_resource_file] resolves to a
    non-empty file, and the one message emitted is a
    [mycroft.audio.play-sound] whose URI is ["file://"] followed by that
    file and which carries the active session id.  It returns without
    emitting: the entry is missing or falsy, or does not resolve.  It
    raises, without emitting: the configuration has no ["sounds"]
    dictionary, or there is a sound to play and the skill is not bound. *)
Theorem acknowledge_effect host bound self outcome final :
  Lifecycle.acknowledge host bound self = (outcome, final) ->
  (outcome = Ok tt /\ bound = true
   /\ exists sounds audio_file,
        get (config_core self) "sounds" = VDict sounds
        /\ truthy (get sounds "acknowledge") = true
        /\ resolve_resource_file host (get sounds "acknowledge")
           = Some audio_file
        /\ str_truthy audio_file = true
        /\ final
           = emit {| msg_type := "mycroft.audio.play-sound";
                     data := {[ "uri" := VStr ("file://" +:+ audio_file);
                                "mycroft_session_id" :=
                                  _mycroft_session_id self ]} |}
                  self)
  \/ (outcome = Ok tt /\ final = self
      /\ exists sounds,
           get (config_core self) "sounds" = VDict sounds
           /\ (truthy (get sounds "acknowledge") = false
               \/ opt_str_truthy
                    (resolve_resource_file host (get sounds "acknowledge"))
                  = false))
  \/ (final = self
      /\ ((outcome = Raise (AttributeError "object has no attribute 'get'")
           /\ forall sounds, get (config_core self) "sounds" ≠ VDict sounds)
          \/ (outcome
              = Raise (PlainException "Accessed MycroftSkill.bus in __init__")
              /\ bound = false
              /\ exists sounds,
                   get (config_core self) "sounds" = VDict sounds
                   /\ truthy (get sounds "acknowledge") = true
                   /\ opt_str_truthy
                        (resolve_resource_file host
                           (get sounds "acknowledge")) = true))).
Proof.
  unfold Lifecycle.acknowledge, Lifecycle.play_sound_uri, Lifecycle.bus_emit.
  destruct (get (config_core self) "sounds") as [| | | | | |sounds] eqn:Hsounds;
    try (intros [= <- <-]; right; right; split; [done|]; left;
         split; [done|]; intros sounds; discriminate).
  destruct (truthy (get sounds "acknowledge")) eqn:Hsetting;
    [|intros [= <- <-]; right; left; split_and!; [done..|];
      exists sounds; auto].
  destruct (resolve_resource_file host (get sounds "acknowledge"))
    as [audio_file|] eqn:Hfile;
    [|intros [= <- <-]; right; left; split_and!; [done..|];
      exists sounds; rewrite Hfile; auto].
  destruct (str_truthy audio_file) eqn:Hnonempty;
    [|intros [= <- <-]; right; left; split_and!; [done..|];
      exists sounds; rewrite Hfile; cbn [opt_str_truthy]; auto].
  destruct bound; intros [= <- <-].
  - left. split_and!; [done..|]. by exists sounds, audio_file.
  - right; right. split; [done|]. right. split_and!; [done..|].
    exists sounds. rewrite Hfile. cbn [opt_str_truthy]. auto.
Qed.

(** The sample skill acknowledges with its configured sound. *)
Lemma acknowledge_effect_witness :
  Lifecycle.acknowledge Sample.disk true Sample.wetter
  = (Ok tt,
     emit {| msg_type := "mycroft.audio.play-sound";
             data := {[ "uri" :=
                          VStr "file:///opt/mycroft/res/snd/acknowledge.mp3";
                        "mycroft_session_id" := VStr "W" ]} |}
          Sample.wetter)
  /\ exists sounds audio_file,
       get (config_core Sample.wetter) "sounds" = VDict sounds
       /\ truthy (get sounds "acknowledge") = true
       /\ resolve_resource_file Sample.disk (get sounds "acknowledge")
          = Some audio_file
       /\ str_truthy audio_file = true.
Proof.
  assert (H : Lifecycle.acknowledge Sample.disk true Sample.wetter
              = (Ok tt,
                 emit {| msg_type := "mycroft.audio.play-sound";
                         data := {[ "uri" :=
                                      VStr "file:///opt/mycroft/res/snd/acknowledge.mp3";
                                    "mycroft_session_id" := VStr "W" ]} |}
                      Sample.wetter)) by (vm_compute; reflexivity).
  split; [exact H|].
  destruct (acknowledge_effect _ _ _ _ _ H)
    as [(_ & _ & sounds & audio_file & Hsounds & Hsetting & Hfile & Hnonempty
         & _)
       |[(_ & Hsame & _)|(Hsame & _)]].
  - exists sounds, audio_file. split; [exact Hsounds|].
    split; [exact Hsetting|]. split; [exact Hfile|exact Hnonempty].
  - exfalso. apply (f_equal bus) in Hsame. discriminate Hsame.
  - exfalso. apply (f_equal bus) in Hsame. discriminate Hsame.
Defined.

(** X19.  A [mycroft.skill.stop] message for this skill makes the session of
    the message the active one and is always answered by exactly one
    message: the envelope [stop] returned, or, when [stop] returned [None]
    or raised, an empty [mycroft.session.end] for that session. *)
Theorem handle_skill_stop_answers host stop message self outcome self2 :
  get (data message) "skill_id" = VStr (skill_id self) ->
  stop (set_session_id (get (data message) "mycroft_session_id") self)
  = (outcome, self2) ->
  let answer :=
    match outcome with
    | Ok (Some envelope) => envelope
    | _ => empty_end_envelope self2
    end in
  __handle_skill_stop host stop message self = (Ok tt, emit answer self2)
  /\ bus (emit answer self2) = bus self2 ++ [answer].
Proof.
  intros Hskill Hstop answer. split; [|reflexivity].
  unfold __handle_skill_stop. rewrite Hskill.
  assert (py_eq (VStr (skill_id self)) (VStr (skill_id self)) = true) as ->
    by by apply py_eq_str.
  cbv beta iota delta [bindM try_except reads modify ret].
  rewrite Hstop. subst answer. by destruct outcome as [[envelope|]|e].
Qed.

(** A stop request for the demo skill, with the base [stop]: the session of
    the request becomes the active one and is ended, with the display
    cleared. *)
Lemma handle_skill_stop_answers_witness :
  (get (data Sample.stop_request) "skill_id" = VStr (skill_id Demo.skill)
   /\ stop Demo.host (set_session_id (VStr "S") Demo.skill)
      = (Ok (Some {| msg_type := "mycroft.session.end";
                     data := {[ "mycroft_session_id" := VStr "S";
                                "skill_id" := VStr "demo";
                                "actions" :=
                                  VList [VDict clear_display_action] ]} |}),
         set_session_id (VStr "S") Demo.skill))
  /\ __handle_skill_stop Demo.host (stop Demo.host) Sample.stop_request
       Demo.skill
     = (Ok tt,
        emit {| msg_type := "mycroft.session.end";
                data := {[ "mycroft_session_id" := VStr "S";
                           "skill_id" := VStr "demo";
                           "actions" :=
                             VList [VDict clear_display_action] ]} |}
             (set_session_id (VStr "S") Demo.skill)).
Proof.
  assert (Hskill : get (data Sample.stop_request) "skill_id"
                   = VStr (skill_id Demo.skill)) by (vm_compute; reflexivity).
  assert (Hstop : stop Demo.host
                    (set_session_id
                       (get (data Sample.stop_request) "mycroft_session_id")
                       Demo.skill)
                  = (Ok (Some {| msg_type := "mycroft.session.end";
                                 data := {[ "mycroft_session_id" := VStr "S";
                                            "skill_id" := VStr "demo";
                                            "actions" :=
                                              VList [VDict clear_display_action]
                                         ]} |}),
                     set_session_id (VStr "S") Demo.skill))
    by (vm_compute; reflexivity).
  split; [split; [exact Hskill|exact Hstop]|].
  exact (proj1 (handle_skill_stop_answers Demo.host (stop Demo.host)
                  Sample.stop_request Demo.skill _ _ Hskill Hstop)).
Defined.

(** X20.  A [mycroft.skill-response] message for this skill and the active
    session is always answered by exactly one message.  The reply handler
    gets the first of the utterances, or [None] when the list is empty or
    missing, and the state of the message; the answer is the envelope it
    returned, or an empty [mycroft.session.end] when it returned [None] or
    raised, or when [acknowledge] raised before it. *)
Theorem handle_skill_response_answers host raw_utterance message self
    utterances outcome self2 :
  get (data message) "skill_id" = VStr (skill_id self) ->
  py_eq (get (data message) "mycroft_session_id") (_mycroft_session_id self)
  = true ->
  get_default (data message) "utterances" (VList []) = VList utterances ->
  bindM (acknowledge host)
    (fun _ => raw_utterance (default VNone (head utterances))
                (get (data message) "state")) self
  = (outcome, self2) ->
  let answer :=
    match outcome with
    | Ok (Some envelope) => envelope
    | _ => empty_end_envelope self2
    end in
  __handle_skill_response host raw_utterance message self
  = (Ok tt, emit answer self2)
  /\ bus (emit answer self2) = bus self2 ++ [answer].
Proof.
  intros Hskill Hsession Hutterances Hbody answer. split; [|reflexivity].
  unfold __handle_skill_response. rewrite Hskill, Hsession, Hutterances.
  assert (py_eq (VStr (skill_id self)) (VStr (skill_id self)) = true) as ->
    by by apply py_eq_str.
  cbn [andb].
  cbv beta iota delta [bindM try_except reads modify ret] in Hbody |- *.
  destruct utterances as [|first rest].
  - change (default VNone (head [])) with VNone in Hbody.
    cbn [truthy]. rewrite Hbody. subst answer.
    by destruct outcome as [[envelope|]|e].
  - change (default VNone (head (first :: rest))) with first in Hbody.
    cbn [truthy index0]. rewrite Hbody. subst answer.
    by destruct outcome as [[envelope|]|e].
Qed.

(** A reply to the demo skill in session ["R"]: the reply handler is called,
    and its [None] is answered by ending the session. *)
Lemma handle_skill_response_answers_witness :
  (get (data Sample.reply) "skill_id" = VStr (skill_id Demo.skill)
   /\ py_eq (get (data Sample.reply) "mycroft_session_id")
        (_mycroft_session_id Demo.skill) = true
   /\ get_default (data Sample.reply) "utterances" (VList [])
      = VList [VStr "yes"; VStr "jess"])
  /\ __handle_skill_response Demo.host tracing_reply Sample.reply Demo.skill
     = (Ok tt,
        emit (empty_end_envelope
                (emit {| msg_type := "demo.called"; data := ∅ |} Demo.skill))
             (emit {| msg_type := "demo.called"; data := ∅ |} Demo.skill)).
Proof.
  assert (Hskill : get (data Sample.reply) "skill_id"
                   = VStr (skill_id Demo.skill)) by (vm_compute; reflexivity).
  assert (Hsession : py_eq (get (data Sample.reply) "mycroft_session_id")
                       (_mycroft_session_id Demo.skill) = true)
    by (vm_compute; reflexivity).
  assert (Hutterances : get_default (data Sample.reply) "utterances" (VList [])
                        = VList [VStr "yes"; VStr "jess"])
    by (vm_compute; reflexivity).
  assert (Hbody : bindM (acknowledge Demo.host)
                    (fun _ => tracing_reply
                                (default VNone (head [VStr "yes"; VStr "jess"]))
                                (get (data Sample.reply) "state")) Demo.skill
                  = (Ok None,
                     emit {| msg_type := "demo.called"; data := ∅ |}
                          Demo.skill)) by (vm_compute; reflexivity).
  split; [split; [exact Hskill|split; [exact Hsession|exact Hutterances]]|].
  exact (proj1 (handle_skill_response_answers Demo.host tracing_reply
                  Sample.reply Demo.skill [VStr "yes"; VStr "jess"] (Ok None)
                  _ Hskill Hsession Hutterances Hbody)).
Defined.

(** ** The base skill *)

(** X21.  [abort_session] never raises: it always returns a
    [mycroft.session.end] envelope for the active session, with no action
    at all and flagged as aborted. *)
Theorem abort_session_envelope host self :
  exists envelope,
    abort_session host self = Ok envelope
    /\ msg_type envelope = "mycroft.session.end"
    /\ dom (data envelope)
       = {[ "mycroft_session_id"; "skill_id"; "actions"; "aborted" ]}
    /\ data envelope !! "aborted" = Some (VBool true)
    /\ data envelope !! "mycroft_session_id" = Some (_mycroft_session_id self)
    /\ data envelope !! "skill_id" = Some (VStr (skill_id self))
    /\ envelope_actions envelope = [].
Proof.
  unfold abort_session. rewrite end_session_default_empty. cbn [Py.bind].
  eexists. split; [reflexivity|].
  cbn [msg_type data empty_end_envelope]. split_and!; reflexivity.
Qed.

(** X22.  A skill that does not override [stop] answers a stop request for it
    by ending the session of the request with one action, which clears the
    display; that session becomes the active one. *)
Theorem handle_skill_stop_clears_display host message self :
  get (data message) "skill_id" = VStr (skill_id self) ->
  exists envelope,
    __handle_skill_stop host (stop host) message self
    = (Ok tt,
       emit envelope
         (set_session_id (get (data message) "mycroft_session_id") self))
    /\ msg_type envelope = "mycroft.session.end"
    /\ data envelope !! "mycroft_session_id"
       = Some (get (data message) "mycroft_session_id")
    /\ data envelope !! "skill_id" = Some (VStr (skill_id self))
    /\ envelope_actions envelope = [clear_display_action].
Proof.
  intros Hskill. unfold __handle_skill_stop. rewrite Hskill.
  assert (py_eq (VStr (skill_id self)) (VStr (skill_id self)) = true) as ->
    by by apply py_eq_str.
  eexists. split; [reflexivity|]. split_and!; reflexivity.
Qed.

(** The stop request of the demo skill. *)
Lemma handle_skill_stop_clears_display_witness :
  get (data Sample.stop_request) "skill_id" = VStr (skill_id Demo.skill)
  /\ exists envelope,
       __handle_skill_stop Demo.host (stop Demo.host) Sample.stop_request
         Demo.skill
       = (Ok tt, emit envelope (set_session_id (VStr "S") Demo.skill))
       /\ data envelope !! "mycroft_session_id" = Some (VStr "S")
       /\ envelope_actions envelope = [clear_display_action].
Proof.
  assert (Hskill : get (data Sample.stop_request) "skill_id"
                   = VStr (skill_id Demo.skill)) by (vm_compute; reflexivity).
  split; [exact Hskill|].
  destruct (handle_skill_stop_clears_display Demo.host Sample.stop_request
              Demo.skill Hskill)
    as (envelope & Hrun & _ & Hsession & _ & Hactions).
  exists envelope. split; [exact Hrun|]. split; [exact Hsession|exact Hactions].
Defined.
